(** * The merchandise-trade dashboard script (22071718.py)

    A shallow embedding of the script: the loader
    [read_export_import_data], the three renderers [line_plot_creation],
    [horizontal_bar_plot_creation] and [create_merchandise_pie_chart], and
    the top-level statements that wire them together.

    - A pandas DataFrame is a list of column labels and a list of rows of
      cells; a cell is a Python [str], [int] or [float].
    - Python floats are IEEE binary64, which is what Rocq's primitive
      floats are, so the arithmetic of the script is computed bit for bit.
    - DataFrame objects live in a store and are passed by reference; every
      call into matplotlib, pyplot or seaborn is appended to a log.
    - What the libraries decide and the repository does not show (how
      [pandas.read_csv] parses a file, which strings pandas reads as a
      number, which wedge sizes matplotlib refuses) is taken as a
      parameter, the class [Libraries]. *)

From Stdlib Require Import ZArith String Ascii List Floats DecimalString Lia.
From stdpp Require Import base option list gmap strings.
Import ListNotations.

Set Warnings "-inexact-float".

Local Open Scope Z_scope.

(** ** Exceptions and results *)

Inductive exn :=
| FileNotFoundError (path : string)
| ParserError
| KeyError (label : string)
| IndexError
| ValueError
| ReferenceError      (* a reference that names no object: never raised by Python *)
| OutsideModel        (* a column label that occurs more than once *).

Inductive result (A : Type) :=
| Ok (a : A)
| Raise (e : exn).
Arguments Ok {A} a.
Arguments Raise {A} e.

Global Instance result_ret : MRet result := fun _ a => Ok a.
Global Instance result_bind : MBind result := fun _ _ f r =>
  match r with
  | Ok a => f a
  | Raise e => Raise e
  end.

(** [xs[i]] on a Python list, for [i >= 0]. *)
Definition list_getitem {A} (xs : list A) (i : nat) : result A :=
  match xs !! i with
  | Some x => Ok x
  | None => Raise IndexError
  end.

(** ** Strings *)

Module Str.

Local Open Scope string_scope.

Definition space : ascii := " "%char.

(** [s.split(sep)] for a separator of one character: the pieces between
    the occurrences of [sep], empty pieces included. The list is never
    empty. *)
Fixpoint split (sep : ascii) (s : string) : list string :=
  match s with
  | EmptyString => [EmptyString]
  | String c rest =>
      if Ascii.eqb c sep then EmptyString :: split sep rest
      else match split sep rest with
           | piece :: pieces => String c piece :: pieces
           | [] => [String c EmptyString]
           end
  end.

(** [col.split(' ')[0]] *)
Definition header_token (col : string) : result string :=
  list_getitem (split space col) 0.

(** The characters of [s] before the first [c]. *)
Fixpoint before (c : ascii) (s : string) : string :=
  match s with
  | EmptyString => EmptyString
  | String c' rest => if Ascii.eqb c' c then EmptyString else String c' (before c rest)
  end.

Fixpoint contains (c : ascii) (s : string) : bool :=
  match s with
  | EmptyString => false
  | String c' rest => Ascii.eqb c' c || contains c rest
  end.

(** The words of the specification: the first whitespace-delimited token
    of a string, with Python's ASCII whitespace (space, tab, line feed,
    vertical tab, form feed, carriage return, and the four separators
    28 to 31). *)
Definition is_whitespace (c : ascii) : bool :=
  let n := nat_of_ascii c in
  (Nat.eqb n 32 || (Nat.leb 9 n && Nat.leb n 13) || (Nat.leb 28 n && Nat.leb n 31))%bool.

Fixpoint take_token (s : string) : string :=
  match s with
  | EmptyString => EmptyString
  | String c rest => if is_whitespace c then EmptyString else String c (take_token rest)
  end.

Fixpoint first_whitespace_token (s : string) : string :=
  match s with
  | EmptyString => EmptyString
  | String c rest => if is_whitespace c then first_whitespace_token rest else take_token s
  end.

Definition upper (c : ascii) : ascii :=
  let n := nat_of_ascii c in
  if (Nat.leb 97 n && Nat.leb n 122)%bool then ascii_of_nat (n - 32) else c.

Definition lower (c : ascii) : ascii :=
  let n := nat_of_ascii c in
  if (Nat.leb 65 n && Nat.leb n 90)%bool then ascii_of_nat (n + 32) else c.

Fixpoint map_chars (f : ascii -> ascii) (s : string) : string :=
  match s with
  | EmptyString => EmptyString
  | String c rest => String (f c) (map_chars f rest)
  end.

(** [s.capitalize()] on ASCII text. *)
Definition capitalize (s : string) : string :=
  match s with
  | EmptyString => EmptyString
  | String c rest => String (upper c) (map_chars lower rest)
  end.

Definition of_N (n : N) : string := NilEmpty.string_of_uint (N.to_uint n).

End Str.

(** ** Floats *)

Module Float.

(** [float(z)]: the binary64 nearest to the integer, ties to even. *)
Definition of_Z (z : Z) : float := SF2Prim (binary_normalize prec emax z 0 false).

Definition of_nat (n : nat) : float := of_Z (Z.of_nat n).

(** [num / den] rounded to the nearest integer, ties to even; [den > 0]. *)
Definition round_half_even (num den : Z) : Z :=
  let q := num / den in
  match 2 * (num mod den) ?= den with
  | Lt => q
  | Gt => q + 1
  | Eq => if Z.even q then q else q + 1
  end.

(** The number of tenths nearest to [m * 2^e]. *)
Definition tenths (m : positive) (e : Z) : Z :=
  if 0 <=? e then Z.pos m * 10 * 2 ^ e
  else round_half_even (Z.pos m * 10) (2 ^ (- e)).

Definition fixed1 (n : Z) : string :=
  (Str.of_N (Z.to_N (n / 10)) ++ "." ++ Str.of_N (Z.to_N (n mod 10)))%string.

(** [f'{x:.1f}']: the exact value of the float, correctly rounded to one
    decimal place (ties to even), with the sign of the float. *)
Definition format_1f (x : float) : string :=
  match Prim2SF x with
  | S754_nan => "nan"%string
  | S754_infinity s => if s then "-inf"%string else "inf"%string
  | S754_zero s => if s then "-0.0"%string else "0.0"%string
  | S754_finite s m e => ((if s then "-" else "") ++ fixed1 (tenths m e))%string
  end.

(** [x >= y] *)
Definition geb (x y : float) : bool := PrimFloat.leb y x.

End Float.

(** ** The data table *)

(** A cell of a DataFrame read from CSV: text, or a number of an integer
    or a float column. A missing entry is the float NaN. *)
Inductive cell :=
| CStr (s : string)
| CInt (z : Z)
| CFloat (x : float).

Definition missing : cell := CFloat nan.

Record DataFrame := mkDataFrame {
  columns : list string;
  rows : list (list cell)
}.

(** What the libraries decide. *)
Class Libraries := {
  (** [pandas.read_csv] on the text of a file: the table, or a parse failure *)
  csv_parse : string -> option DataFrame;
  (** the number pandas reads in a string, if it reads one *)
  to_double : string -> option float;
  (** whether [Axes.pie] accepts these wedge sizes *)
  pie_wedges_ok : list float -> bool
}.

Module Frame.

(** [df.iloc[:stop]], a new frame. *)
Definition iloc_until (stop : Z) (df : DataFrame) : DataFrame :=
  let n := Z.of_nat (length (rows df)) in
  let stop' := if stop <? 0 then Z.max 0 (n + stop) else Z.min stop n in
  mkDataFrame (columns df) (take (Z.to_nat stop') (rows df)).

(** The entries of [xs] at the positions where [mask] is [true]. *)
Fixpoint mask_select {A} (mask : list bool) (xs : list A) : list A :=
  match mask, xs with
  | b :: mask', x :: xs' => if b then x :: mask_select mask' xs' else mask_select mask' xs'
  | _, _ => []
  end.

Definition is_label_in (labels : list string) (col : string) : bool :=
  existsb (String.eqb col) labels.

(** The two identifier columns the loader drops. *)
Definition code_labels : list string := ["Country Code"; "Series Code"]%string.

(** [df.drop(columns=labels)]: a label that names no column is a
    [KeyError]; every column with one of the labels goes. *)
Definition drop_columns (labels : list string) (df : DataFrame) : result DataFrame :=
  match List.find (fun l => negb (is_label_in (columns df) l)) labels with
  | Some l => Raise (KeyError l)
  | None =>
      let keep := map (fun col => negb (is_label_in labels col)) (columns df) in
      Ok (mkDataFrame (mask_select keep (columns df)) (map (mask_select keep) (rows df)))
  end.

(** [df.columns = labels]: the number of labels must be the number of
    columns. *)
Definition set_columns (labels : list string) (df : DataFrame) : result DataFrame :=
  if Nat.eqb (length labels) (length (columns df))
  then Ok (mkDataFrame labels (rows df))
  else Raise ValueError.

(** The positions of a label among the column labels. *)
Fixpoint positions (label : string) (cols : list string) : list nat :=
  match cols with
  | [] => []
  | col :: cols' =>
      (if String.eqb col label then [0%nat] else []) ++ map S (positions label cols')
  end.

(** The position of the one column with this label. A label that is
    absent is a [KeyError]; with a label that occurs twice pandas hands
    back a two-dimensional frame, which is outside this model. *)
Definition column_index (df : DataFrame) (label : string) : result nat :=
  match positions label (columns df) with
  | [] => Raise (KeyError label)
  | [i] => Ok i
  | _ => Raise OutsideModel
  end.

Definition cell_at (i : nat) (row : list cell) : cell := nth i row missing.

(** [df[label]] *)
Definition getitem (df : DataFrame) (label : string) : result (list cell) :=
  i ← column_index df label; Ok (map (cell_at i) (rows df)).

(** [series == text] *)
Definition eq_scalar (series : list cell) (text : string) : list bool :=
  map (fun c => match c with CStr s => String.eqb s text | _ => false end) series.

(** [series.isin(texts)] *)
Definition isin (series : list cell) (texts : list string) : list bool :=
  map (fun c => match c with CStr s => existsb (String.eqb s) texts | _ => false end) series.

(** [mask1 & mask2] *)
Definition mask_and (m1 m2 : list bool) : list bool := zip_with andb m1 m2.

(** [df.loc[mask, label].values.tolist()] *)
Definition loc (df : DataFrame) (mask : list bool) (label : string) : result (list cell) :=
  col ← getitem df label; Ok (mask_select mask col).

(** The selection each renderer makes:
[[
data.loc[(data['Series'] == indicator) & (data['Country'].isin(countries)),
         year].values.tolist()
]] *)
Definition select (df : DataFrame) (indicator : string) (countries : list string)
    (year : string) : result (list cell) :=
  series ← getitem df "Series";
  country ← getitem df "Country";
  loc df (mask_and (eq_scalar series indicator) (isin country countries)) year.

(** A row as the selection reads it: its Series cell is the indicator
    and its Country cell is one of the countries. *)
Definition row_selected (i_series i_country : nat) (indicator : string)
    (countries : list string) (row : list cell) : bool :=
  match cell_at i_series row, cell_at i_country row with
  | CStr s, CStr c => String.eqb s indicator && existsb (String.eqb c) countries
  | _, _ => false
  end.

End Frame.

(** ** Numeric coercion *)

(** The [errors] argument of [pandas.to_numeric]. *)
Inductive errors_policy := errors_raise | errors_coerce.

Section Coercion.
Context `{Libraries}.

Definition parse_cell (c : cell) : option float :=
  match c with
  | CStr s => to_double s
  | CInt z => Some (Float.of_Z z)
  | CFloat x => Some x
  end.

Definition coerce_cell (c : cell) : float := default nan (parse_cell c).

(** [pd.to_numeric(values, errors=...)] on a list of cells. The array is
    carried as binary64: the renderers divide it by a float or hand it to
    matplotlib, both of which convert an integer array first. *)
Definition to_numeric (values : list cell) (errors : errors_policy) : result (list float) :=
  match errors with
  | errors_coerce => Ok (map coerce_cell values)
  | errors_raise =>
      match mapM parse_cell values with
      | Some xs => Ok xs
      | None => Raise ValueError
      end
  end.

End Coercion.

(** ** Calls into the plotting libraries *)

Inductive colormap := viridis | Set3 | prism.

Inductive colour :=
| named (name : string)
| cmap_at (cm : colormap) (x : float)            (* [cm(x)] *)
| cmap_linspace (cm : colormap) (n : nat)        (* [cm(np.linspace(0, 1, n))] *).

Module Axes.

(** The methods of [matplotlib.axes.Axes] the script calls, with the
    arguments it passes. *)
Inductive call :=
| plot (x : list string) (y : list float) (marker label color : string)
| barh (y width : list float) (height : float) (label : string) (color : colour)
       (edgecolor : string)
| text (x y : float) (s ha va color : string) (fontsize : Z) (weight : option string)
| pie (x : list float) (labels : list string) (explode : list float) (autopct : string)
      (shadow : bool) (startangle : Z) (colors : colour)
| set_title (label : string) (pad fontsize : Z)
| set_xlabel (label : string) (fontsize : Z)
| set_ylabel (label : string) (fontsize : Z)
| set_yticks (ticks : list float)
| set_yticklabels (labels : list string)
| legend
| grid (visible : option bool)
| spine_set_visible (spine : string) (visible : bool)
| add_artist_circle (cx cy radius : float) (fc : string)
| axis (arg : string).

(** A bar drawn by [barh]: a [matplotlib.patches.Rectangle]. *)
Record rectangle := mkRectangle {
  get_x : float;
  get_y : float;
  get_width : float;
  get_height : float
}.

End Axes.

Inductive pyplot_call :=
| rcParams_update (settings : list (string * string))
| figure (width height : Z)
| subplots (nrows ncols : nat) (width height : Z)
| subplots_adjust (params : list (string * float))
| suptitle (t : string) (fontsize : Z) (weight : string)
| figtext (x y : float) (s ha va : string) (fontdict : list (string * string))
          (bbox : list (string * string)) (wrap : bool)
| tight_layout (pad : Z) (rect : list float)
| show.

Inductive seaborn_call :=
| sns_set (style palette context : string)
| set_style (style : string).

Inductive event :=
| on_axes (ax : nat) (c : Axes.call)
| on_pyplot (c : pyplot_call)
| on_seaborn (c : seaborn_call).

(** ** The state of the process and its monad *)

Record world := mkWorld {
  files : gmap string string;      (* the file system: path to text *)
  frames : gmap nat DataFrame;     (* the DataFrame objects, by reference *)
  axes_made : nat;                 (* how many Axes objects exist *)
  log : list event                 (* the library calls made so far *)
}.

Definition M (A : Type) : Type := world -> result A * world.

Definition run {A} (m : M A) (w : world) : result A * world := m w.

Global Instance M_ret : MRet M := fun _ a w => (Ok a, w).
Global Instance M_bind : MBind M := fun _ _ f m w =>
  match m w with
  | (Ok a, w') => f a w'
  | (Raise e, w') => (Raise e, w')
  end.

Definition raise {A} (e : exn) : M A := fun w => (Raise e, w).

Definition lift {A} (r : result A) : M A := fun w => (r, w).

Definition emit (e : event) : M unit :=
  fun w => (Ok tt, mkWorld (files w) (frames w) (axes_made w) (log w ++ [e])).

Definition new_frame (df : DataFrame) : M nat :=
  fun w =>
    let r := fresh (dom (frames w)) in
    (Ok r, mkWorld (files w) (<[r := df]> (frames w)) (axes_made w) (log w)).

Definition get_frame (r : nat) : M DataFrame :=
  fun w =>
    match frames w !! r with
    | Some df => (Ok df, w)
    | None => (Raise ReferenceError, w)
    end.

(** An operation in place on the frame at [r]. *)
Definition update_frame (r : nat) (f : DataFrame -> result DataFrame) : M unit :=
  fun w =>
    match frames w !! r with
    | Some df =>
        match f df with
        | Ok df' => (Ok tt, mkWorld (files w) (<[r := df']> (frames w)) (axes_made w) (log w))
        | Raise e => (Raise e, w)
        end
    | None => (Raise ReferenceError, w)
    end.

(** [for x in xs: body(x)] *)
Fixpoint for_each {A} (xs : list A) (body : A -> M unit) : M unit :=
  match xs with
  | [] => mret tt
  | x :: xs' => body x;; for_each xs' body
  end.

(** [enumerate(xs, start)] *)
Fixpoint enumerate_from {A} (start : nat) (xs : list A) : list (nat * A) :=
  match xs with
  | [] => []
  | x :: xs' => (start, x) :: enumerate_from (S start) xs'
  end.

(** [enumerate(xs)] *)
Definition enumerate {A} (xs : list A) : list (nat * A) := enumerate_from 0 xs.

Section Script.
Context `{Libraries}.

(** [pd.read_csv(path)] *)
Definition read_csv (path : string) : M DataFrame :=
  fun w =>
    match files w !! path with
    | None => (Raise (FileNotFoundError path), w)
    | Some content =>
        match csv_parse content with
        | Some df => (Ok df, w)
        | None => (Raise ParserError, w)
        end
    end.

(** ** The loader (lines 7 to 22) *)

Definition read_export_import_data (filename : string) : M nat :=
  full ← read_csv filename;
  merchandise_data ← new_frame (Frame.iloc_until (-10) full);
  update_frame merchandise_data (Frame.drop_columns Frame.code_labels);;
  df ← get_frame merchandise_data;
  labels ← lift (mapM Str.header_token (columns df));
  update_frame merchandise_data (Frame.set_columns labels);;
  mret merchandise_data.

(** ** matplotlib's own checks *)

(** [ax.plot(x, y, ...)]: x and y must have the same length. *)
Definition ax_plot (ax : nat) (x : list string) (y : list float)
    (marker label color : string) : M unit :=
  if Nat.eqb (length x) (length y)
  then emit (on_axes ax (Axes.plot x y marker label color))
  else raise ValueError.

(** numpy's broadcasting of two one-dimensional arrays. *)
Definition broadcast {A B} (xs : list A) (ys : list B) : result (list (A * B)) :=
  if Nat.eqb (length xs) (length ys) then Ok (zip xs ys)
  else match xs, ys with
       | [x], _ => Ok (map (pair x) ys)
       | _, [y] => Ok (map (fun x => (x, y)) xs)
       | _, _ => Raise ValueError
       end.

(** [ax.barh(y, width, height=..., ...)] with the default [left=0] and
    [align='center']: one rectangle per broadcast pair, returned to the
    caller. *)
Definition ax_barh (ax : nat) (y width : list float) (height : float) (label : string)
    (color : colour) (edgecolor : string) : M (list Axes.rectangle) :=
  pairs ← lift (broadcast y width);
  emit (on_axes ax (Axes.barh y width height label color edgecolor));;
  mret (map (fun p => Axes.mkRectangle 0 (fst p - height / 2) (snd p) height)%float pairs).

(** [ax.pie(x, labels=..., explode=..., ...)]: labels and explode must be
    as long as x, and the wedge sizes must be acceptable. *)
Definition ax_pie (ax : nat) (x : list float) (labels : list string) (explode : list float)
    (autopct : string) (shadow : bool) (startangle : Z) (colors : colour) : M unit :=
  if (pie_wedges_ok x && Nat.eqb (length x) (length labels)
      && Nat.eqb (length x) (length explode))%bool
  then emit (on_axes ax (Axes.pie x labels explode autopct shadow startangle colors))
  else raise ValueError.

Definition ax_do (ax : nat) (c : Axes.call) : M unit := emit (on_axes ax c).

(** ** The line renderer (lines 44 to 70) *)

Definition line_colors : list string := ["red"; "dodgerblue"; "lawngreen"; "k"]%string.

(** The body of the loop, lines 58 to 63. *)
Definition line_plot_year (ax data : nat) (countries : list string) (indicator : string)
    (colors : list string) (i : nat) (year : string) : M unit :=
  df ← get_frame data;
  values ← lift (Frame.select df indicator countries year);
  values ← lift (to_numeric values errors_coerce);
  let values := map (fun v => v / 10)%float values in
  color ← lift (list_getitem colors i);
  ax_plot ax countries values "D" year color.

(** What follows the loop, lines 65 to 70. *)
Definition line_plot_finish (ax : nat) (indicator : string) : M unit :=
  ax_do ax (Axes.set_title (indicator ++ " (American Countries)")%string 15 30);;
  emit (on_seaborn (set_style "dark"));;
  ax_do ax (Axes.set_xlabel "Country" 20);;
  ax_do ax (Axes.set_ylabel "Value (in 10^10)" 20);;
  ax_do ax Axes.legend;;
  ax_do ax (Axes.grid (Some true)).

Definition line_plot_creation (ax data : nat) (countries : list string)
    (indicator : string) (years : list string) : M unit :=
  let colors := line_colors in
  for_each (enumerate years) (fun '(i, year) =>
    line_plot_year ax data countries indicator colors i year);;
  line_plot_finish ax indicator.

(** ** The bar renderer (lines 72 to 115) *)

Definition bar_height : float := 0.20%float.

(** [np.arange(n)] *)
Definition arange (n : nat) : list float := map Float.of_nat (seq 0 n).

(** Line 101: the label of a bar, from its value in billions. *)
Definition formatted_value (value : float) : string :=
  if Float.geb value 1
  then (Float.format_1f value ++ "B")%string
  else (Float.format_1f (value * 1000)%float ++ "M")%string.

(** The inner loop, lines 100 to 104: one text per bar. *)
Definition annotate_bars (ax : nat) (bars : list Axes.rectangle)
    (values_billions : list float) : M unit :=
  for_each (zip bars values_billions) (fun '(bar, value) =>
    ax_do ax (Axes.text (Axes.get_width bar)
                        (Axes.get_y bar + Axes.get_height bar / 2)%float
                        (formatted_value value) "left" "center" "k" 20 None)).

(** The body of the outer loop, lines 90 to 104. *)
Definition bar_plot_year (ax data : nat) (countries : list string) (indicator : string)
    (years : list string) (bar_positions : list float) (colormap : colormap)
    (i : nat) (year : string) : M unit :=
  df ← get_frame data;
  values ← lift (Frame.select df indicator countries year);
  values ← lift (to_numeric values errors_coerce);
  let values_billions := map (fun val => val / 1000000000)%float values in
  bars ← ax_barh ax
           (map (fun p => p + Float.of_nat i * bar_height)%float bar_positions)
           values_billions bar_height year
           (cmap_at colormap (Float.of_nat i / Float.of_nat (length years))%float) "k";
  annotate_bars ax bars values_billions.

(** What follows the loop, lines 106 to 115. *)
Definition bar_plot_finish (ax : nat) (countries : list string) (indicator : string)
    (years : list string) (bar_positions : list float) : M unit :=
  ax_do ax (Axes.set_title (indicator ++ " (Asian Countries)")%string 27 30);;
  emit (on_seaborn (set_style "dark"));;
  ax_do ax (Axes.set_xlabel "Value (in Billions)" 20);;
  ax_do ax (Axes.set_ylabel "Country" 20);;
  ax_do ax (Axes.set_yticks
              (map (fun p => p + (Float.of_Z (Z.of_nat (length years) - 1) * bar_height) / 2)%float
                   bar_positions));;
  ax_do ax (Axes.set_yticklabels countries);;
  ax_do ax Axes.legend;;
  ax_do ax (Axes.grid None);;
  ax_do ax (Axes.spine_set_visible "top" false);;
  ax_do ax (Axes.spine_set_visible "right" false).

Definition horizontal_bar_plot_creation (ax data : nat) (countries : list string)
    (indicator : string) (years : list string) : M unit :=
  let bar_positions := arange (length countries) in
  let colormap := viridis in
  for_each (enumerate years) (fun '(i, year) =>
    bar_plot_year ax data countries indicator years bar_positions colormap i year);;
  bar_plot_finish ax countries indicator years bar_positions.

(** ** The pie renderer (lines 117 to 152) *)

(** Line 139 *)
Definition pie_colormap (chart_type : string) : colormap :=
  if String.eqb chart_type "exports" then Set3 else prism.

(** Line 145 *)
Definition pie_chart_title (chart_type : string) : string :=
  if String.eqb chart_type "exports"
  then "Exports to economies in the Arab World"%string
  else "Imports from economies in the Arab World"%string.

(** What follows the pie itself, lines 147 to 152. *)
Definition pie_finish (ax : nat) (year chart_type chart_title : string) : M unit :=
  ax_do ax (Axes.set_title (chart_title ++ " in " ++ year)%string 20 30);;
  ax_do ax (Axes.add_artist_circle 0 0 0.40 "white");;
  ax_do ax (Axes.text 0 0 (Str.capitalize chart_type) "center" "center" "black" 25
                      (Some "bold"%string));;
  ax_do ax (Axes.axis "equal").

Definition create_merchandise_pie_chart (ax data : nat) (countries : list string)
    (indicator year chart_type : string) : M unit :=
  df ← get_frame data;
  values ← lift (Frame.select df indicator countries year);
  values ← lift (to_numeric values errors_coerce);
  let explode := replicate (length countries) 0.1%float in
  let colormap := pie_colormap chart_type in
  ax_pie ax values countries explode "%1.1f%%" true 140
         (cmap_linspace colormap (length countries));;
  let chart_title := pie_chart_title chart_type in
  pie_finish ax year chart_type chart_title.

End Script.

(** ** The top-level statements (lines 24 to 42 and 154 to 225) *)

Module Main.

Local Open Scope string_scope.

Definition background_color := "plum".

Definition filename := "MerchandiseData.csv".

Definition arab_countries := ["Saudi Arabia"; "Bahrain"; "Iraq"; "Qatar"; "Libya"; "Kuwait"].
Definition european_countries := ["France"; "Germany"; "Italy"; "Poland"; "Spain"].
Definition asian_countries := ["China"; "India"; "Japan"; "Malaysia"; "Singapore"].
Definition american_countries :=
  ["Colombia"; "Brazil"; "Canada"; "Chile"; "Argentina"; "Mexico"].

Definition year_list := ["2010"; "2011"; "2012"; "2013"].

Definition indicators_list :=
  ["Merchandise exports (current US$)";
   "Merchandise exports to economies in the Arab World (% of total merchandise exports)";
   "Merchandise imports (current US$)";
   "Merchandise imports from economies in the Arab World (% of total merchandise imports)"].

Definition details_params :=
  [("facecolor", "#add8e6"); ("alpha", "0.7"); ("edgecolor", "black");
   ("boxstyle", "round,pad=1")].

Definition description_text := "
Objective of the Plots:

The Merchandise value of goods exported by American nations grew gradually, rising from 70 billion in 2010 to 458 billion in 2013. Canada is a major exporter of goods, with 387 billion in 2010 and 458 billion in 2013.

Asian countries are gradually increasing their imports of goods across all regions, but China is the region's leading importer in 2010, the value of its imports was $1369 billion, but in 2013, it jumped to $1950 billion.

In 2015, the percentage of goods exported and imported by the Arab countries' economies had significant consequences.
Saudi Arabia exports 67.1% of its commodities, but only imports 33.4% of them. In terms of economics, Kuwait is the second-largest Arab exporter, accounting for 10.4% of global goods.

In the Arab world's economy in 2015, 50.7% of imports were sourced from Qatar, Libya, and Iraq.

Data Source: World Bank Data
".

Definition details :=
  "Name : Susairaj Anthony" ++ String "010" "Student ID : 22071718".

Definition font_props := [("fontsize", "40"); ("weight", "bold"); ("family", "sans-serif")].

Definition description_font_props :=
  [("fontsize", "35"); ("family", "sans-serif"); ("weight", "bold")].

(** [plt.subplots(nrows, ncols, figsize=...)]: new Axes objects, as a grid. *)
Definition plt_subplots (nrows ncols : nat) (width height : Z) : M (list (list nat)) :=
  fun w =>
    let grid :=
      map (fun r => map (fun c => (axes_made w + r * ncols + c)%nat) (seq 0 ncols))
          (seq 0 nrows) in
    (Ok grid,
     mkWorld (files w) (frames w) (axes_made w + nrows * ncols)%nat
             (log w ++ [on_pyplot (subplots nrows ncols width height)])).

(** [axs[r, c]] *)
Definition grid_getitem (axs : list (list nat)) (r c : nat) : M nat :=
  row ← lift (list_getitem axs r); lift (list_getitem row c).

Section Run.
Context `{Libraries}.

Definition main : M unit :=
  emit (on_seaborn (sns_set "whitegrid" "pastel" "talk"));;
  emit (on_pyplot (rcParams_update
    [("font.size", "20"); ("axes.titleweight", "bold"); ("font.family", "sans-serif");
     ("axes.labelweight", "bold"); ("figure.facecolor", background_color);
     ("axes.facecolor", background_color); ("savefig.facecolor", background_color)]));;
  emit (on_pyplot (figure 45 45));;
  axs ← plt_subplots 2 2 40 20;
  emit (on_pyplot (subplots_adjust
    [("left", 0.05); ("bottom", 0.1); ("right", 0.6); ("top", 0.9); ("wspace", 0.3);
     ("hspace", 0.4)]%float));;
  merchandise_data ← read_export_import_data filename;
  ax ← grid_getitem axs 0 0;
  line_plot_creation ax merchandise_data american_countries
    "Merchandise exports (current US$)" year_list;;
  ax ← grid_getitem axs 0 1;
  horizontal_bar_plot_creation ax merchandise_data asian_countries
    "Merchandise imports (current US$)" year_list;;
  ax ← grid_getitem axs 1 0;
  create_merchandise_pie_chart ax merchandise_data arab_countries
    "Merchandise exports to economies in the Arab World (% of total merchandise exports)"
    "2015" "exports";;
  ax ← grid_getitem axs 1 1;
  create_merchandise_pie_chart ax merchandise_data arab_countries
    "Merchandise imports from economies in the Arab World (% of total merchandise imports)"
    "2015" "imports";;
  emit (on_pyplot (suptitle "Growth of Merchandise Trade in the Regions 2010-2015" 40 "bold"));;
  emit (on_pyplot (figtext 0.70 0.1 details "left" "center" font_props details_params false));;
  emit (on_pyplot (figtext 0.60 0.3 description_text "left" "bottom" description_font_props
                           [] true));;
  emit (on_pyplot (tight_layout 2 [0; 0; 0.6; 1]%float));;
  emit (on_pyplot (subplots_adjust [("top", 0.90%float)]));;
  (* line 223, the call of plt.savefig, is a comment *)
  emit (on_pyplot show).

End Run.

End Main.

(** ** A small instance of the libraries, and tables to run the script on *)

Module Fixture.

Local Open Scope string_scope.

Definition newline : ascii := "010"%char.
Definition tab : ascii := "009"%char.

(** Comma-separated text without quoting; every cell is kept as text. *)
Definition parse_plain_csv (content : string) : option DataFrame :=
  match List.filter (fun l => negb (String.eqb l "")) (Str.split newline content) with
  | [] => None
  | header :: body =>
      Some (mkDataFrame (Str.split "," header)
                        (map (fun l => map CStr (Str.split "," l)) body))
  end.

(** Unsigned decimal integers. *)
Definition parse_digits (s : string) : option float :=
  if String.eqb s "" then None
  else match NilEmpty.uint_of_string s with
       | Some u => Some (Float.of_Z (Z.of_N (N.of_uint u)))
       | None => None
       end.

Definition wedges_nonnegative (x : list float) : bool :=
  forallb (fun v => PrimFloat.leb 0 v) x.

Definition libs : Libraries :=
  {| csv_parse := parse_plain_csv;
     to_double := parse_digits;
     pie_wedges_ok := wedges_nonnegative |}.

Definition lines (ls : list string) : string :=
  fold_right (fun l acc => l ++ String newline acc) "" ls.

Definition footer : list string := replicate 10 ",,,,".

Definition exports := "Merchandise exports (current US$)".
Definition imports := "Merchandise imports (current US$)".

(** Two years, two data rows and the ten trailing rows. *)
Definition two_years_csv : string :=
  lines (["Country Name,Country Code,Series Name,Series Code,2010,2011";
          "Brazil,BRA," ++ exports ++ ",TX.VAL.MRCH.CD.WT,201915,256040";
          "Canada,CAN," ++ exports ++ ",TX.VAL.MRCH.CD.WT,387481,452440"] ++ footer).

(** A year header whose two parts are separated by a tab. *)
Definition tab_header : string := "2010" ++ String tab "[YR2010]".

Definition tab_csv : string :=
  lines (["Country Name,Country Code,Series Name,Series Code," ++ tab_header;
          "Brazil,BRA," ++ exports ++ ",TX.VAL.MRCH.CD.WT,201915"] ++ footer).

(** Three rows and no more: fewer than the ten the loader drops. *)
Definition short_csv : string :=
  lines ["Country Name,Country Code,Series Name,Series Code,2010";
         "Brazil,BRA," ++ exports ++ ",TX.VAL.MRCH.CD.WT,201915";
         ",,,,"; ",,,,"].

Definition disk : gmap string string :=
  {[ "two_years.csv" := two_years_csv; "tab.csv" := tab_csv; "short.csv" := short_csv;
     "broken.csv" := "" ]}.

Definition fresh_process : world := mkWorld disk ∅ 0 [].

(** A loaded table: Brazil before Canada, one non-numeric cell. *)
Definition trade : DataFrame :=
  mkDataFrame ["Country"; "Series"; "2010"; "2011"; "2012"; "2013"; "2014"]
    [ [CStr "Brazil"; CStr exports; CInt 201915000000; CStr "256040000000";
       CFloat 242578000000; CInt 242034000000; CInt 225101000000];
      [CStr "Brazil"; CStr imports; CInt 191537000000; CInt 236964000000;
       CInt 233400000000; CInt 250556000000; CInt 239152000000];
      [CStr "Canada"; CStr exports; CInt 387481000000; CStr "N/A";
       CInt 455594000000; CInt 458287000000; CInt 476356000000];
      [CStr "China"; CStr exports; CInt 1577754000000; CInt 1898381000000;
       CInt 2048714000000; CInt 2209005000000; CInt 2342293000000];
      [CStr "Canada"; CStr imports; CInt 2500000000; CInt 400000000;
       CInt 265950000; CInt 462273000000; CInt 475000000000] ].

Definition with_trade : world := mkWorld ∅ {[ 7%nat := trade ]} 1 [].

End Fixture.

(** ** What a computation leaves alone *)

(** [m] leaves a part of the state, [part], as it found it, whether it
    returns or raises. *)
Definition keeps {A B} (part : world -> B) (m : M A) : Prop :=
  forall w, part (snd (run m w)) = part w.

(** The text the bar renderer puts next to a bar. *)
Definition bar_text (ax : nat) (p : Axes.rectangle * float) : event :=
  on_axes ax (Axes.text (Axes.get_width (fst p))
                        (Axes.get_y (fst p) + Axes.get_height (fst p) / 2)%float
                        (formatted_value (snd p)) "left" "center" "k" 20 None).

(** ** More tables, and what a renderer may log *)

Module Samples.

Local Open Scope string_scope.

(** A file whose header has no Series Code column. *)
Definition no_series_code_csv : string :=
  Fixture.lines (["Country Name,Country Code,Series Name,2010";
                  "Brazil,BRA," ++ Fixture.exports ++ ",201915"] ++ Fixture.footer).

(** World Bank headers: each year with its code in brackets. *)
Definition bracket_years_csv : string :=
  Fixture.lines (["Country Name,Country Code,Series Name,Series Code,2010 [YR2010],2011 [YR2011]";
                  "Brazil,BRA," ++ Fixture.exports ++ ",TX.VAL.MRCH.CD.WT,201915,256040";
                  "Canada,CAN," ++ Fixture.exports ++ ",TX.VAL.MRCH.CD.WT,387481,452440"]
                 ++ replicate 10 ",,,,,").

Definition disk : gmap string string :=
  {[ "no_series_code.csv" := no_series_code_csv; "bracket_years.csv" := bracket_years_csv ]}.

Definition fresh_process : world := mkWorld disk ∅ 0 [].

End Samples.

(** The calls a renderer given the Axes object [ax] makes: methods of
    [ax], and [sns.set_style("dark")]. *)
Definition own_event (ax : nat) (e : event) : Prop :=
  e = on_seaborn (set_style "dark") \/ exists c, e = on_axes ax c.

(** [m] only adds to the log, and only events that satisfy [allowed],
    whether it returns or raises. *)
Definition logs_only {A} (allowed : event -> Prop) (m : M A) : Prop :=
  forall w, exists new, log (snd (run m w)) = log w ++ new /\ Forall allowed new.

(** * Properties *)

(** ** Strings *)

Module StrFacts.

Import Str.

Lemma split_head (sep : ascii) (s : string) :
  exists pieces, split sep s = before sep s :: pieces.
Proof.
  induction s as [|c rest [pieces IH]]; simpl.
  - by exists [].
  - destruct (Ascii.eqb c sep); [by eexists|].
    rewrite IH. by eexists.
Qed.

Lemma header_token_before (col : string) : header_token col = Ok (before space col).
Proof.
  unfold header_token, list_getitem.
  destruct (split_head space col) as [pieces ->]. done.
Qed.

Lemma contains_before (c : ascii) (s : string) : contains c (before c s) = false.
Proof.
  induction s as [|c' rest IH]; simpl; [done|].
  destruct (Ascii.eqb c' c) eqn:E; simpl; [done|].
  by rewrite E, IH.
Qed.

Lemma before_without (c : ascii) (s : string) : contains c s = false -> before c s = s.
Proof.
  induction s as [|c' rest IH]; simpl; [done|].
  destruct (Ascii.eqb c' c); simpl; [done|].
  intros Hc. by rewrite IH.
Qed.

Lemma before_idempotent (c : ascii) (s : string) : before c (before c s) = before c s.
Proof. apply before_without, contains_before. Qed.

Lemma mapM_header_token (cols : list string) :
  mapM header_token cols = Ok (map (before space) cols).
Proof.
  induction cols as [|col cols IH]; simpl; [done|].
  rewrite header_token_before. simpl. rewrite IH. done.
Qed.

End StrFacts.

(** C10: the renaming of a header, [col.split(' ')[0]], always yields a
    token, applying it to that token yields the same token again, and a
    header with no space in it is its own token. *)
Theorem header_token_idempotent (h : string) :
  (exists t, Str.header_token h = Ok t /\ Str.header_token t = Ok t)
  /\ (Str.contains Str.space h = false -> Str.header_token h = Ok h).
Proof.
  split.
  - exists (Str.before Str.space h). split.
    + apply StrFacts.header_token_before.
    + rewrite StrFacts.header_token_before. by rewrite StrFacts.before_idempotent.
  - intros Hnone. rewrite StrFacts.header_token_before.
    by rewrite StrFacts.before_without.
Qed.

Lemma header_token_idempotent_witness :
  Str.contains Str.space "2010" = false /\ Str.header_token "2010" = Ok "2010"%string.
Proof.
  split; [reflexivity|].
  apply (proj2 (header_token_idempotent "2010")). reflexivity.
Defined.

Example header_token_year : Str.header_token "2010 [YR2010]" = Ok "2010"%string.
Proof. reflexivity. Qed.

Example header_token_leading_space : Str.header_token " 2010" = Ok ""%string.
Proof. reflexivity. Qed.

(** ** The loader *)

Module FrameFacts.

Import Frame.

Lemma is_label_in_elem (labels : list string) (col : string) :
  col ∈ labels -> is_label_in labels col = true.
Proof.
  intros Hin. unfold is_label_in. apply existsb_exists.
  exists col. split; [by apply list_elem_of_In | apply String.eqb_refl].
Qed.

Lemma rows_iloc_until_neg (stop : Z) (df : DataFrame) :
  stop < 0 ->
  rows (iloc_until stop df) = take (length (rows df) - Z.to_nat (- stop)) (rows df).
Proof.
  intros Hstop. unfold iloc_until. simpl.
  destruct (stop <? 0) eqn:E; [|lia].
  f_equal. lia.
Qed.

Lemma columns_iloc_until (stop : Z) (df : DataFrame) :
  columns (iloc_until stop df) = columns df.
Proof. reflexivity. Qed.

Lemma drop_columns_present (labels : list string) (df : DataFrame) :
  Forall (fun l => l ∈ columns df) labels ->
  drop_columns labels df =
    Ok (mkDataFrame
          (mask_select (map (fun col => negb (is_label_in labels col)) (columns df)) (columns df))
          (map (mask_select (map (fun col => negb (is_label_in labels col)) (columns df)))
               (rows df))).
Proof.
  intros Hall. unfold drop_columns.
  destruct (List.find _ labels) as [l|] eqn:Hfind; [|done].
  apply find_some in Hfind as [Hin Hneg].
  rewrite Forall_forall in Hall.
  apply list_elem_of_In, Hall in Hin.
  by rewrite (is_label_in_elem _ _ Hin) in Hneg.
Qed.

End FrameFacts.

Section LoaderFacts.
Context `{Libraries}.

(** What a successful load leaves in the store: the parsed table without
    its last ten rows and its code columns, each header cut at its first
    space. *)
Lemma loader_run (w : world) (filename content : string) (full dropped : DataFrame) :
  files w !! filename = Some content ->
  csv_parse content = Some full ->
  Frame.drop_columns Frame.code_labels (Frame.iloc_until (-10) full) = Ok dropped ->
  run (read_export_import_data filename) w =
    (Ok (fresh (dom (frames w))),
     mkWorld (files w)
             (<[fresh (dom (frames w)) :=
                  mkDataFrame (map (Str.before Str.space) (columns dropped)) (rows dropped)]>
                (frames w))
             (axes_made w) (log w)).
Proof.
  intros Hfile Hparse Hdrop.
  unfold run, read_export_import_data, mbind, M_bind, read_csv.
  rewrite Hfile, Hparse. unfold new_frame, update_frame, get_frame, lift, mret, M_ret.
  simpl. rewrite lookup_insert_eq, Hdrop. simpl.
  rewrite lookup_insert_eq, StrFacts.mapM_header_token. simpl.
  rewrite lookup_insert_eq. unfold Frame.set_columns.
  rewrite length_map, Nat.eqb_refl. simpl.
  by rewrite !insert_insert_eq.
Qed.

End LoaderFacts.

Section LoaderTotal.
Context `{Libraries}.

Lemma mask_select_map_filter {A} (f : A -> bool) (xs : list A) :
  Frame.mask_select (map f xs) xs = List.filter f xs.
Proof.
  induction xs as [|x xs IH]; simpl; [done|].
  destruct (f x); by rewrite IH.
Qed.

(** For any table that has the two code columns, the load succeeds and
    leaves ten rows fewer (none when there were at most ten). *)
Lemma loader_total (w : world) (filename content : string) (full : DataFrame) :
  files w !! filename = Some content ->
  csv_parse content = Some full ->
  Forall (fun l => l ∈ columns full) Frame.code_labels ->
  exists r w' out,
    run (read_export_import_data filename) w = (Ok r, w')
    /\ frames w' !! r = Some out
    /\ files w' = files w
    /\ columns out =
         map (Str.before Str.space)
             (List.filter (fun col => negb (Frame.is_label_in Frame.code_labels col))
                          (columns full))
    /\ rows out =
         map (Frame.mask_select
                (map (fun col => negb (Frame.is_label_in Frame.code_labels col)) (columns full)))
             (take (length (rows full) - 10) (rows full)).
Proof.
  intros Hfile Hparse Hcodes.
  pose proof (FrameFacts.drop_columns_present Frame.code_labels
                (Frame.iloc_until (-10) full) Hcodes) as Hdrop.
  eexists _, _, _. split; [by eapply loader_run|].
  cbn [frames files columns rows]. rewrite lookup_insert_eq.
  rewrite FrameFacts.columns_iloc_until.
  split; [done|]. split; [done|]. split.
  - by rewrite mask_select_map_filter.
  - by rewrite FrameFacts.rows_iloc_until_neg.
Qed.

End LoaderTotal.

(** C2, as amended: for a table with header
    [Country Name, Country Code, Series Name, Series Code, years...] and
    N+10 data rows the loader returns a table of exactly N rows, the first
    N of the input, without the cells of the two code columns; its headers
    are those of the remaining columns, each cut at its first space
    character ([col.split(' ')[0]]): Country, Series and the year headers
    up to their first space. *)
Theorem loader_drops_codes_and_truncates `{Libraries} (w : world)
    (filename content : string) (years : list string) (table : list (list cell)) (N : nat) :
  files w !! filename = Some content ->
  csv_parse content =
    Some (mkDataFrame
            ("Country Name" :: "Country Code" :: "Series Name" :: "Series Code" :: years)%string
            table) ->
  length table = (N + 10)%nat ->
  let not_code := fun col => negb (Frame.is_label_in Frame.code_labels col) in
  exists r w' out,
    run (read_export_import_data filename) w = (Ok r, w')
    /\ frames w' !! r = Some out
    /\ length (rows out) = N
    /\ rows out =
         map (Frame.mask_select (true :: false :: true :: false :: map not_code years))
             (take N table)
    /\ Forall (fun col => not_code col = true) (List.filter not_code years)
    /\ mapM Str.header_token
            ("Country Name" :: "Series Name" :: List.filter not_code years)%string
         = Ok (columns out)
    /\ columns out =
         ("Country" :: "Series" :: map (Str.before Str.space) (List.filter not_code years))%string.
Proof.
  intros Hfile Hparse Hlen not_code.
  destruct (loader_total w filename content _ Hfile Hparse) as (r & w' & out & Hrun & Hout & _ & Hcols & Hrows).
  { repeat constructor; simpl; set_solver. }
  simpl in Hcols, Hrows.
  exists r, w', out. split; [done|]. split; [done|].
  assert (Hrows' : rows out =
            map (Frame.mask_select (true :: false :: true :: false :: map not_code years))
                (take N table)).
  { rewrite Hrows, Hlen. do 3 f_equal. lia. }
  split; [|split; [done|]].
  - rewrite Hrows', length_map, length_take. lia.
  - split; [|split].
    + apply Forall_forall. intros col Hin.
      apply list_elem_of_In, filter_In in Hin. tauto.
    + rewrite StrFacts.mapM_header_token. by rewrite Hcols.
    + done.
Qed.

Lemma loader_drops_codes_and_truncates_witness :
  exists r w' out,
    run (read_export_import_data (H := Fixture.libs) "two_years.csv") Fixture.fresh_process
      = (Ok r, w')
    /\ frames w' !! r = Some out
    /\ length (rows out) = 2%nat
    /\ columns out = ["Country"; "Series"; "2010"; "2011"]%string.
Proof.
  destruct (loader_drops_codes_and_truncates (H := Fixture.libs) Fixture.fresh_process
              "two_years.csv" Fixture.two_years_csv ["2010"; "2011"]%string
              (match Fixture.parse_plain_csv Fixture.two_years_csv with
               | Some df => rows df
               | None => []
               end) 2)
    as (r & w' & out & Hrun & Hout & Hlen & _ & _ & _ & Hcols).
  - vm_compute. reflexivity.
  - vm_compute. reflexivity.
  - vm_compute. reflexivity.
  - exists r, w', out. repeat split; assumption.
Defined.

(** C2 as the specification words it, with the first whitespace-delimited
    token, fails on a year header whose parts a tab separates: the loader
    keeps the whole header, the first whitespace-delimited token is the
    year alone. *)
Lemma loader_whitespace_counterexample :
  exists r w' out,
    run (read_export_import_data (H := Fixture.libs) "tab.csv") Fixture.fresh_process
      = (Ok r, w')
    /\ frames w' !! r = Some out
    /\ length (rows out) = 1%nat
    /\ columns out = ["Country"; "Series"; Fixture.tab_header]%string
    /\ map Str.first_whitespace_token ["Country Name"; "Series Name"; Fixture.tab_header]%string
       = ["Country"; "Series"; "2010"]%string
    /\ columns out
       <> map Str.first_whitespace_token ["Country Name"; "Series Name"; Fixture.tab_header]%string.
Proof.
  eexists _, _, _. split; [vm_compute; reflexivity|].
  split; [vm_compute; reflexivity|].
  repeat split; try (vm_compute; reflexivity).
  vm_compute. discriminate.
Qed.

(** C9: a table with the two code columns and at most ten data rows loads
    to a table with no rows; for any number of rows the load returns, with
    ten rows fewer (none when there were at most ten). *)
Theorem loader_short_table_empty `{Libraries} (w : world) (filename content : string)
    (full : DataFrame) :
  files w !! filename = Some content ->
  csv_parse content = Some full ->
  "Country Code"%string ∈ columns full ->
  "Series Code"%string ∈ columns full ->
  exists r w' out,
    run (read_export_import_data filename) w = (Ok r, w')
    /\ frames w' !! r = Some out
    /\ length (rows out) = (length (rows full) - 10)%nat
    /\ ((length (rows full) <= 10)%nat -> rows out = []).
Proof.
  intros Hfile Hparse Hcc Hsc.
  destruct (loader_total w filename content full Hfile Hparse) as (r & w' & out & Hrun & Hout & _ & _ & Hrows).
  { by repeat constructor. }
  exists r, w', out. split; [done|]. split; [done|]. split.
  - rewrite Hrows, length_map, length_take. lia.
  - intros Hshort. rewrite Hrows.
    replace (length (rows full) - 10)%nat with 0%nat by lia. done.
Qed.

Lemma loader_short_table_empty_witness :
  exists r w' out,
    run (read_export_import_data (H := Fixture.libs) "short.csv") Fixture.fresh_process
      = (Ok r, w')
    /\ frames w' !! r = Some out
    /\ rows out = [].
Proof.
  destruct (loader_short_table_empty (H := Fixture.libs) Fixture.fresh_process
              "short.csv" Fixture.short_csv
              (match Fixture.parse_plain_csv Fixture.short_csv with
               | Some df => df
               | None => mkDataFrame [] []
               end))
    as (r & w' & out & Hrun & Hout & _ & Hempty).
  - vm_compute. reflexivity.
  - vm_compute. reflexivity.
  - vm_compute. set_solver.
  - vm_compute. set_solver.
  - exists r, w', out. split; [assumption|]. split; [assumption|].
    apply Hempty. vm_compute. lia.
Defined.

(** ** The selection *)

Module SelectFacts.

Import Frame.

Lemma getitem_index (df : DataFrame) (label : string) (i : nat) :
  column_index df label = Ok i -> getitem df label = Ok (map (cell_at i) (rows df)).
Proof. intros Hi. unfold getitem. by rewrite Hi. Qed.

(** The mask pandas builds column by column picks the rows a test row by
    row picks. *)
Lemma mask_select_rows (i_series i_country i_year : nat) (indicator : string)
    (countries : list string) (table : list (list cell)) :
  mask_select
    (mask_and (eq_scalar (map (cell_at i_series) table) indicator)
              (isin (map (cell_at i_country) table) countries))
    (map (cell_at i_year) table)
  = map (cell_at i_year)
        (List.filter (row_selected i_series i_country indicator countries) table).
Proof.
  induction table as [|row table IH]; [done|].
  cbn [map eq_scalar isin mask_and zip_with mask_select List.filter].
  fold (eq_scalar (map (cell_at i_series) table) indicator).
  fold (isin (map (cell_at i_country) table) countries).
  fold (mask_and (eq_scalar (map (cell_at i_series) table) indicator)
                 (isin (map (cell_at i_country) table) countries)).
  rewrite IH. unfold row_selected.
  destruct (cell_at i_series row) as [s| |], (cell_at i_country row) as [c| |];
    cbn [andb]; rewrite ?andb_false_r; try done.
  by destruct (String.eqb s indicator && existsb (String.eqb c) countries).
Qed.

Lemma row_selected_spec (i_series i_country : nat) (indicator : string)
    (countries : list string) (row : list cell) :
  row_selected i_series i_country indicator countries row = true <->
  cell_at i_series row = CStr indicator
  /\ exists c, c ∈ countries /\ cell_at i_country row = CStr c.
Proof.
  unfold row_selected. split.
  - destruct (cell_at i_series row) as [s| |]; try done.
    destruct (cell_at i_country row) as [c| |]; try done.
    intros [Hs Hc]%andb_prop.
    apply String.eqb_eq in Hs as ->. split; [done|].
    apply existsb_exists in Hc as (c' & Hin & ->%String.eqb_eq).
    exists c'. split; [by apply list_elem_of_In | done].
  - intros [-> (c & Hin & ->)].
    rewrite String.eqb_refl. cbn [andb].
    apply existsb_exists. exists c. split; [by apply list_elem_of_In | apply String.eqb_refl].
Qed.

End SelectFacts.

(** C3: in a table whose Series, Country and year labels each name one
    column, the selection returns the year cells of exactly the rows whose
    Series is the indicator and whose Country is in the list, in the order
    of the rows of the table, one value per such row. *)
Theorem select_rows_in_table_order (df : DataFrame) (indicator : string)
    (countries : list string) (year : string) (i_series i_country i_year : nat) :
  Frame.column_index df "Series" = Ok i_series ->
  Frame.column_index df "Country" = Ok i_country ->
  Frame.column_index df year = Ok i_year ->
  let matching :=
    List.filter (Frame.row_selected i_series i_country indicator countries) (rows df) in
  Frame.select df indicator countries year = Ok (map (Frame.cell_at i_year) matching)
  /\ length (map (Frame.cell_at i_year) matching) = length matching
  /\ (forall row, row ∈ matching <->
        row ∈ rows df
        /\ Frame.cell_at i_series row = CStr indicator
        /\ exists c, c ∈ countries /\ Frame.cell_at i_country row = CStr c).
Proof.
  intros Hs Hc Hy matching. split; [|split].
  - unfold Frame.select, Frame.loc.
    rewrite (SelectFacts.getitem_index _ _ _ Hs), (SelectFacts.getitem_index _ _ _ Hc),
            (SelectFacts.getitem_index _ _ _ Hy).
    cbn [mbind result_bind].
    by rewrite SelectFacts.mask_select_rows.
  - apply length_map.
  - intros row. unfold matching.
    rewrite list_elem_of_In, filter_In, <- list_elem_of_In.
    by rewrite SelectFacts.row_selected_spec.
Qed.

Lemma select_rows_in_table_order_witness :
  Frame.select Fixture.trade Fixture.exports ["Brazil"; "Canada"]%string "2010"
  = Ok [CInt 201915000000; CInt 387481000000].
Proof.
  refine (eq_trans
            (proj1 (select_rows_in_table_order Fixture.trade Fixture.exports
                      ["Brazil"; "Canada"]%string "2010" 1 0 2 _ _ _)) _);
    reflexivity.
Defined.

(** The order is that of the rows, not that of the list of countries. *)
Example select_ignores_list_order :
  Frame.select Fixture.trade Fixture.exports ["Canada"; "Brazil"]%string "2010"
  = Ok [CInt 201915000000; CInt 387481000000].
Proof. reflexivity. Qed.

Example select_missing_year :
  Frame.select Fixture.trade Fixture.exports ["Canada"; "Brazil"]%string "1999"
  = Raise (KeyError "1999").
Proof. reflexivity. Qed.

(** ** Numeric coercion *)

(** C4: [pd.to_numeric(values, errors='coerce')] returns for every list of
    cells, one number per cell; a text cell pandas reads no number in
    becomes NaN, in the array of the pie renderer (line 135), in the array
    of the bar renderer and its values in billions (lines 93 and 94), and in
    the array the line renderer divides by ten (line 61). *)
Theorem coercion_never_raises `{Libraries} (values : list cell) :
  exists numbers,
    to_numeric values errors_coerce = Ok numbers
    /\ length numbers = length values
    /\ forall (k : nat) (s : string),
         values !! k = Some (CStr s) ->
         to_double s = None ->
         numbers !! k = Some nan
         /\ map (fun val => val / 1000000000)%float numbers !! k = Some nan
         /\ map (fun v => v / 10)%float numbers !! k = Some nan.
Proof.
  exists (map coerce_cell values). split; [done|]. split; [apply length_map|].
  intros k s Hk Hs.
  assert (Hnan : map coerce_cell values !! k = Some nan).
  { rewrite list_lookup_fmap, Hk. cbn [fmap option_fmap option_map].
    unfold coerce_cell, parse_cell. by rewrite Hs. }
  split; [done|].
  split; rewrite list_lookup_fmap, Hnan; reflexivity.
Qed.

Lemma coercion_never_raises_witness :
  exists numbers,
    to_numeric (H := Fixture.libs) [CStr "387481"; CStr "N/A"; CInt 5] errors_coerce = Ok numbers
    /\ numbers !! 1%nat = Some nan
    /\ map (fun v => v / 10)%float numbers !! 1%nat = Some nan.
Proof.
  destruct (coercion_never_raises (H := Fixture.libs) [CStr "387481"; CStr "N/A"; CInt 5])
    as (numbers & Hrun & _ & Hnan).
  exists numbers. split; [assumption|].
  destruct (Hnan 1%nat "N/A"%string) as (H1 & _ & H3); [reflexivity | reflexivity |].
  split; assumption.
Defined.

Example coerce_not_available :
  to_numeric (H := Fixture.libs) [CStr "387481"; CStr "N/A"; CInt 5] errors_coerce
  = Ok [387481%float; nan; 5%float].
Proof. reflexivity. Qed.

(** With the default [errors='raise'] the same list is refused. *)
Example raise_not_available :
  to_numeric (H := Fixture.libs) [CStr "387481"; CStr "N/A"; CInt 5] errors_raise
  = Raise ValueError.
Proof. reflexivity. Qed.

(** ** Running the monad *)

Module MFacts.

Lemma run_bind {A B} (m : M A) (f : A -> M B) (w : world) :
  run (m ≫= f) w =
    match run m w with
    | (Ok a, w') => run (f a) w'
    | (Raise e, w') => (Raise e, w')
    end.
Proof. reflexivity. Qed.

Lemma run_bind_ok {A B} (m : M A) (f : A -> M B) (w w' : world) (a : A) :
  run m w = (Ok a, w') -> run (m ≫= f) w = run (f a) w'.
Proof. intros Hm. by rewrite run_bind, Hm. Qed.

Lemma run_bind_raise {A B} (m : M A) (f : A -> M B) (w w' : world) (e : exn) :
  run m w = (Raise e, w') -> run (m ≫= f) w = (Raise e, w').
Proof. intros Hm. by rewrite run_bind, Hm. Qed.

Lemma run_lift {A} (r : result A) (w : world) : run (lift r) w = (r, w).
Proof. reflexivity. Qed.

Lemma run_emit (e : event) (w : world) :
  run (emit e) w = (Ok tt, mkWorld (files w) (frames w) (axes_made w) (log w ++ [e])).
Proof. reflexivity. Qed.

Lemma run_get_frame (r : nat) (df : DataFrame) (w : world) :
  frames w !! r = Some df -> run (get_frame r) w = (Ok df, w).
Proof. intros Hr. unfold run, get_frame. by rewrite Hr. Qed.

(** A loop whose body only logs one call per element logs them in order. *)
Lemma for_each_emit {A} (xs : list A) (body : A -> M unit) (f : A -> event) (w : world) :
  (forall x, body x = emit (f x)) ->
  run (for_each xs body) w
  = (Ok tt, mkWorld (files w) (frames w) (axes_made w) (log w ++ map f xs)).
Proof.
  intros Hbody. revert w.
  induction xs as [|x xs IH]; intros w.
  - destruct w. cbn. by rewrite app_nil_r.
  - cbn [for_each]. rewrite run_bind, Hbody, run_emit, IH.
    cbn [files frames axes_made log map]. by rewrite <- app_assoc.
Qed.

End MFacts.

(** ** The bar renderer *)

Section BarFacts.
Context `{Libraries}.

Lemma annotate_bars_run (ax : nat) (bars : list Axes.rectangle) (values_billions : list float)
    (w : world) :
  run (annotate_bars ax bars values_billions) w
  = (Ok tt, mkWorld (files w) (frames w) (axes_made w)
                    (log w ++ map (bar_text ax) (zip bars values_billions))).
Proof.
  unfold annotate_bars. apply MFacts.for_each_emit. by intros [bar value].
Qed.

End BarFacts.

(** C1, as amended: in the bar renderer the label of each bar is computed
    from its value rescaled to billions, [value = v / 1e9]: when
    [value >= 1] it is [value] to one decimal place followed by B,
    otherwise it is [value * 1000] to one decimal place followed by M
    (the product is taken in binary64, and is the millions amount [v / 1e6]
    up to its rounding). Every selected value gets a bar, and its label. *)
Theorem bar_labels_from_billions `{Libraries} (ax data : nat) (df : DataFrame)
    (countries : list string) (indicator : string) (years : list string)
    (bar_positions : list float) (cm : colormap) (i : nat) (year : string)
    (cells : list cell) (w : world) :
  frames w !! data = Some df ->
  Frame.select df indicator countries year = Ok cells ->
  length cells = length bar_positions ->
  let values_billions := map (fun c => coerce_cell c / 1000000000)%float cells in
  let label := fun value : float =>
    if PrimFloat.leb 1 value
    then (Float.format_1f value ++ "B")%string
    else (Float.format_1f (value * 1000)%float ++ "M")%string in
  exists (bars : list Axes.rectangle) (y : list float) (colour : colour),
    length bars = length cells
    /\ map Axes.get_width bars = values_billions
    /\ run (bar_plot_year ax data countries indicator years bar_positions cm i year) w
       = (Ok tt,
          mkWorld (files w) (frames w) (axes_made w)
            (log w
             ++ on_axes ax (Axes.barh y values_billions bar_height year colour "k")
             :: map (fun p : Axes.rectangle * float =>
                       on_axes ax (Axes.text (Axes.get_width (fst p))
                                     (Axes.get_y (fst p) + Axes.get_height (fst p) / 2)%float
                                     (label (snd p)) "left" "center" "k" 20 None))
                    (zip bars values_billions))).
Proof.
  intros Hdata Hselect Hlen values_billions label.
  set (y := map (fun p => p + Float.of_nat i * bar_height)%float bar_positions).
  set (bars := map (fun p : float * float =>
                      Axes.mkRectangle 0 (fst p - bar_height / 2) (snd p) bar_height)%float
                   (zip y values_billions)).
  exists bars, y, (cmap_at cm (Float.of_nat i / Float.of_nat (length years))%float).
  assert (Hyv : length y = length values_billions).
  { unfold y, values_billions. rewrite !length_map. lia. }
  split; [|split].
  - unfold bars. rewrite length_map, length_zip, Hyv.
    unfold values_billions. rewrite length_map. lia.
  - unfold bars. rewrite map_map. cbn [Axes.get_width snd].
    change (map (fun x : float * float => snd x) (zip y values_billions))
      with ((zip y values_billions).*2).
    apply snd_zip. lia.
  - unfold bar_plot_year.
    rewrite (MFacts.run_bind_ok _ _ _ _ _ (MFacts.run_get_frame _ _ _ Hdata)).
    rewrite MFacts.run_bind, MFacts.run_lift, Hselect.
    rewrite MFacts.run_bind, MFacts.run_lift. cbn [to_numeric].
    rewrite (map_map coerce_cell). fold values_billions. fold y.
    rewrite MFacts.run_bind. unfold ax_barh at 1.
    rewrite MFacts.run_bind, MFacts.run_lift. unfold broadcast.
    apply Nat.eqb_eq in Hyv. rewrite Hyv.
    rewrite MFacts.run_bind, MFacts.run_emit.
    cbn [run mret M_ret]. fold bars.
    fold (run (annotate_bars ax bars values_billions)
              (mkWorld (files w) (frames w) (axes_made w)
                 (log w ++ [on_axes ax (Axes.barh y values_billions bar_height year
                      (cmap_at cm (Float.of_nat i / Float.of_nat (length years))%float) "k")]))).
    rewrite annotate_bars_run. cbn [files frames axes_made log].
    by rewrite <- app_assoc.
Qed.

Lemma bar_labels_from_billions_witness :
  fst (run (bar_plot_year (H := Fixture.libs) 0 7 ["Brazil"; "Canada"]%string Fixture.imports
              ["2010"; "2011"]%string (arange 2) viridis 1 "2011")
           Fixture.with_trade)
  = Ok tt.
Proof.
  destruct (bar_labels_from_billions (H := Fixture.libs) 0 7 Fixture.trade
              ["Brazil"; "Canada"]%string Fixture.imports ["2010"; "2011"]%string
              (arange 2) viridis 1 "2011" [CInt 236964000000; CInt 400000000]
              Fixture.with_trade)
    as (bars & y & colour & _ & _ & Hrun).
  - reflexivity.
  - reflexivity.
  - reflexivity.
  - rewrite Hrun. reflexivity.
Defined.

Example bar_label_billions :
  formatted_value (Float.of_Z 2500000000 / 1000000000)%float = "2.5B"%string.
Proof. vm_compute. reflexivity. Qed.

Example bar_label_millions :
  formatted_value (Float.of_Z 400000000 / 1000000000)%float = "400.0M"%string.
Proof. vm_compute. reflexivity. Qed.

Example bar_label_missing : formatted_value (nan / 1000000000)%float = "nanM"%string.
Proof. vm_compute. reflexivity. Qed.

(** C1 as the specification words it, with the millions amount [v / 1e6],
    fails at v = 265950000: the renderer multiplies the billions amount by
    1000, which gives 265.95000000000005 and the label 266.0M, where
    [v / 1e6] is the float just below 265.95 and formats as 265.9. *)
Lemma bar_label_millions_counterexample :
  let v := Float.of_Z 265950000 in
  PrimFloat.leb 1 (v / 1000000000)%float = false
  /\ formatted_value (v / 1000000000)%float = "266.0M"%string
  /\ (Float.format_1f (v / 1000000)%float ++ "M")%string = "265.9M"%string
  /\ formatted_value (v / 1000000000)%float
     <> (Float.format_1f (v / 1000000)%float ++ "M")%string.
Proof.
  repeat split; try (vm_compute; reflexivity).
  vm_compute. discriminate.
Qed.

(** ** The line renderer *)

Section LineFacts.
Context `{Libraries}.

Lemma line_plot_year_run (ax data : nat) (df : DataFrame) (countries : list string)
    (indicator : string) (colors : list string) (i : nat) (year color : string)
    (cells : list cell) (w : world) :
  frames w !! data = Some df ->
  Frame.select df indicator countries year = Ok cells ->
  length cells = length countries ->
  colors !! i = Some color ->
  run (line_plot_year ax data countries indicator colors i year) w
  = (Ok tt,
     mkWorld (files w) (frames w) (axes_made w)
       (log w ++ [on_axes ax (Axes.plot countries
                                (map (fun c => coerce_cell c / 10)%float cells)
                                "D" year color)])).
Proof.
  intros Hdata Hselect Hlen Hcolor. unfold line_plot_year.
  rewrite (MFacts.run_bind_ok _ _ _ _ _ (MFacts.run_get_frame _ _ _ Hdata)).
  rewrite MFacts.run_bind, MFacts.run_lift, Hselect.
  rewrite MFacts.run_bind, MFacts.run_lift. cbn [to_numeric].
  rewrite (map_map coerce_cell).
  rewrite MFacts.run_bind, MFacts.run_lift. unfold list_getitem. rewrite Hcolor.
  unfold ax_plot. rewrite length_map, Hlen, Nat.eqb_refl.
  apply MFacts.run_emit.
Qed.

(** Without a colour for its index, a year is selected and coerced, and
    then [colors[i]] raises. *)
Lemma line_plot_year_no_colour (ax data : nat) (df : DataFrame) (countries : list string)
    (indicator : string) (colors : list string) (i : nat) (year : string)
    (cells : list cell) (w : world) :
  frames w !! data = Some df ->
  Frame.select df indicator countries year = Ok cells ->
  colors !! i = None ->
  run (line_plot_year ax data countries indicator colors i year) w = (Raise IndexError, w).
Proof.
  intros Hdata Hselect Hcolor. unfold line_plot_year.
  rewrite (MFacts.run_bind_ok _ _ _ _ _ (MFacts.run_get_frame _ _ _ Hdata)).
  rewrite MFacts.run_bind, MFacts.run_lift, Hselect.
  rewrite MFacts.run_bind, MFacts.run_lift. cbn [to_numeric].
  rewrite MFacts.run_bind, MFacts.run_lift. unfold list_getitem. by rewrite Hcolor.
Qed.



End LineFacts.

(** C5, at the input where the code departs from it: with five years, each
    a column of the table and each selecting as many rows as there are
    countries, the line renderer draws four series and then raises
    IndexError, for the renderer has four colours. No series is drawn for
    the fifth year, and no title. *)
Theorem line_plot_fifth_year_raises :
  exists w',
    run (line_plot_creation (H := Fixture.libs) 0 7 ["Brazil"; "Canada"]%string
           Fixture.exports ["2010"; "2011"; "2012"; "2013"; "2014"]%string)
        Fixture.with_trade
    = (Raise IndexError, w')
    /\ length (log w') = 4%nat
    /\ Frame.select Fixture.trade Fixture.exports ["Brazil"; "Canada"]%string "2014"
       = Ok [CInt 225101000000; CInt 476356000000].
Proof.
  eexists. split; [vm_compute; reflexivity|].
  split; vm_compute; reflexivity.
Qed.

Example line_plot_four_years :
  fst (run (line_plot_creation (H := Fixture.libs) 0 7 ["Brazil"; "Canada"]%string
              Fixture.exports ["2010"; "2011"; "2012"; "2013"]%string)
           Fixture.with_trade)
  = Ok tt.
Proof. vm_compute. reflexivity. Qed.

Example line_plot_second_year :
  log (snd (run (line_plot_year (H := Fixture.libs) 0 7 ["Brazil"; "Canada"]%string
                   Fixture.exports line_colors 1 "2011")
                Fixture.with_trade))
  = [on_axes 0 (Axes.plot ["Brazil"; "Canada"]%string [25604000000%float; nan]
                          "D" "2011" "dodgerblue")].
Proof. vm_compute. reflexivity. Qed.

(** ** The pie renderer *)

Section PieFacts.
Context `{Libraries}.

Lemma pie_finish_run (ax : nat) (year chart_type chart_title : string) (w : world) :
  run (pie_finish ax year chart_type chart_title) w
  = (Ok tt,
     mkWorld (files w) (frames w) (axes_made w)
       (log w ++ [on_axes ax (Axes.set_title (chart_title ++ " in " ++ year)%string 20 30);
                  on_axes ax (Axes.add_artist_circle 0 0 0.40 "white");
                  on_axes ax (Axes.text 0 0 (Str.capitalize chart_type) "center" "center"
                                        "black" 25 (Some "bold"%string));
                  on_axes ax (Axes.axis "equal")])).
Proof.
  unfold pie_finish, ax_do.
  repeat (rewrite MFacts.run_bind, MFacts.run_emit; cbn [files frames axes_made log]).
  rewrite MFacts.run_emit. cbn [files frames axes_made log].
  by rewrite <- !app_assoc.
Qed.

(** What a pie renderer that returned has done. *)
Lemma pie_chart_run_inv (ax data : nat) (countries : list string)
    (indicator year chart_type : string) (w w' : world) (u : unit) :
  run (create_merchandise_pie_chart ax data countries indicator year chart_type) w
    = (Ok u, w') ->
  exists df cells,
    frames w !! data = Some df
    /\ Frame.select df indicator countries year = Ok cells
    /\ length cells = length countries
    /\ w' = mkWorld (files w) (frames w) (axes_made w)
              (log w
               ++ [on_axes ax (Axes.pie (map coerce_cell cells) countries
                                 (replicate (length countries) 0.1%float) "%1.1f%%" true 140
                                 (cmap_linspace (pie_colormap chart_type) (length countries)));
                   on_axes ax (Axes.set_title
                                 (pie_chart_title chart_type ++ " in " ++ year)%string 20 30);
                   on_axes ax (Axes.add_artist_circle 0 0 0.40 "white");
                   on_axes ax (Axes.text 0 0 (Str.capitalize chart_type) "center" "center"
                                         "black" 25 (Some "bold"%string));
                   on_axes ax (Axes.axis "equal")]).
Proof.
  unfold create_merchandise_pie_chart.
  rewrite MFacts.run_bind. unfold get_frame at 1. unfold run at 1.
  destruct (frames w !! data) as [df|] eqn:Hdata; [|done].
  rewrite MFacts.run_bind, MFacts.run_lift.
  destruct (Frame.select df indicator countries year) as [cells|] eqn:Hselect; [|done].
  rewrite MFacts.run_bind, MFacts.run_lift. cbn [to_numeric]. cbv zeta.
  rewrite MFacts.run_bind. unfold ax_pie at 1.
  destruct (pie_wedges_ok (map coerce_cell cells)
            && Nat.eqb (length (map coerce_cell cells)) (length countries)
            && Nat.eqb (length (map coerce_cell cells))
                       (length (replicate (length countries) 0.1%float)))%bool eqn:Hok;
    [|done].
  rewrite MFacts.run_emit, pie_finish_run. cbn [files frames axes_made log].
  intros [= _ <-].
  apply andb_prop in Hok as [[_ Hlabels]%andb_prop _].
  apply Nat.eqb_eq in Hlabels. rewrite length_map in Hlabels.
  exists df, cells. repeat split; try done.
  by rewrite <- app_assoc.
Qed.

End PieFacts.

(** C6: when the pie renderer returns, the pie it has drawn takes its
    colours from a colormap and the chart a title that depend on
    [chart_type] alone, besides the year in the title: Set3 and
    "Exports to economies in the Arab World in <year>" when [chart_type]
    is "exports", prism and
    "Imports from economies in the Arab World in <year>" for any other
    value. *)
Theorem pie_palette_and_title_by_chart_type `{Libraries} (ax data : nat)
    (countries : list string) (indicator year chart_type : string) (w w' : world) :
  run (create_merchandise_pie_chart ax data countries indicator year chart_type) w
    = (Ok tt, w') ->
  exists (values explode : list float) (cm : colormap) (title : string) (rest : list event),
    log w' = log w
             ++ on_axes ax (Axes.pie values countries explode "%1.1f%%" true 140
                              (cmap_linspace cm (length countries)))
             :: on_axes ax (Axes.set_title title 20 30)
             :: rest
    /\ cm = pie_colormap chart_type
    /\ (chart_type = "exports"%string /\ cm = Set3
        /\ title = ("Exports to economies in the Arab World in " ++ year)%string
        \/ chart_type <> "exports"%string /\ cm = prism
           /\ title = ("Imports from economies in the Arab World in " ++ year)%string).
Proof.
  intros Hrun.
  apply pie_chart_run_inv in Hrun as (df & cells & _ & _ & _ & ->).
  eexists _, _, _, _, _. split; [reflexivity|]. split; [reflexivity|].
  unfold pie_colormap, pie_chart_title.
  destruct (String.eqb_spec chart_type "exports") as [->|Hne].
  - left. repeat split; reflexivity.
  - right. repeat split; done.
Qed.

Lemma pie_palette_and_title_by_chart_type_witness :
  exists w' values explode rest,
    run (create_merchandise_pie_chart (H := Fixture.libs) 0 7 ["Brazil"; "Canada"]%string
           Fixture.exports "2012" "imports")
        Fixture.with_trade
    = (Ok tt, w')
    /\ log w' = on_axes 0 (Axes.pie values ["Brazil"; "Canada"]%string explode "%1.1f%%" true
                                    140 (cmap_linspace prism 2))
                :: on_axes 0 (Axes.set_title
                                "Imports from economies in the Arab World in 2012" 20 30)
                :: rest.
Proof.
  eexists. 
  destruct (pie_palette_and_title_by_chart_type (H := Fixture.libs) 0 7
              ["Brazil"; "Canada"]%string Fixture.exports "2012" "imports"
              Fixture.with_trade
              (snd (run (create_merchandise_pie_chart (H := Fixture.libs) 0 7
                           ["Brazil"; "Canada"]%string Fixture.exports "2012" "imports")
                        Fixture.with_trade)))
    as (values & explode & cm & title & rest & Hlog & _ & [(Hex & _)|(_ & -> & ->)]).
  - vm_compute. reflexivity.
  - discriminate Hex.
  - exists values, explode, rest. split; [vm_compute; reflexivity|].
    exact Hlog.
Defined.

Example pie_exports_title :
  pie_colormap "exports" = Set3
  /\ (pie_chart_title "exports" ++ " in " ++ "2015")%string
     = "Exports to economies in the Arab World in 2015"%string.
Proof. split; reflexivity. Qed.

Example pie_other_chart_type :
  pie_colormap "Exports" = prism
  /\ pie_chart_title "Exports" = "Imports from economies in the Arab World"%string.
Proof. split; reflexivity. Qed.

(** ** What the script leaves alone *)

Section Keeps.
Context {B : Type} (part : world -> B).
(** [part] does not look at the log nor at the count of Axes objects. *)
Hypothesis part_store : forall fs fr n l n' l',
  part (mkWorld fs fr n l) = part (mkWorld fs fr n' l').

Lemma keeps_ret {A} (a : A) : keeps part (mret a).
Proof. by intros w. Qed.

Lemma keeps_raise {A} (e : exn) : keeps part (raise (A := A) e).
Proof. by intros w. Qed.

Lemma keeps_lift {A} (r : result A) : keeps part (lift r).
Proof. by intros w. Qed.

Lemma keeps_bind {A C} (m : M A) (f : A -> M C) :
  keeps part m -> (forall a, keeps part (f a)) -> keeps part (m ≫= f).
Proof.
  intros Hm Hf w. rewrite MFacts.run_bind.
  specialize (Hm w). destruct (run m w) as [[a|e] w1]; cbn [snd] in *; [|done].
  by rewrite Hf.
Qed.

Lemma keeps_for_each {A} (xs : list A) (body : A -> M unit) :
  (forall x, keeps part (body x)) -> keeps part (for_each xs body).
Proof.
  intros Hbody. induction xs as [|x xs IH]; cbn [for_each].
  - apply keeps_ret.
  - apply keeps_bind; [apply Hbody | by intros _].
Qed.

Lemma keeps_emit (e : event) : keeps part (emit e).
Proof. intros [fs fr n l]. apply part_store. Qed.

Lemma keeps_get_frame (r : nat) : keeps part (get_frame r).
Proof. intros w. unfold run, get_frame. by destruct (frames w !! r). Qed.

Lemma keeps_plt_subplots (nrows ncols : nat) (width height : Z) :
  keeps part (Main.plt_subplots nrows ncols width height).
Proof. intros [fs fr n l]. apply part_store. Qed.

Lemma keeps_grid_getitem (axs : list (list nat)) (r c : nat) :
  keeps part (Main.grid_getitem axs r c).
Proof. apply keeps_bind; [apply keeps_lift | intros; apply keeps_lift]. Qed.

End Keeps.

(** Splits a goal [keeps part m] along the structure of [m]. *)
Ltac keeps_step :=
  match goal with
  | |- keeps _ (mbind _ _) => apply keeps_bind; [|intros]
  | |- keeps _ (for_each _ _) => apply keeps_for_each; intros
  | |- keeps _ (let '(_, _) := ?p in _) => destruct p
  | |- keeps _ (if ?b then _ else _) => destruct b
  | |- keeps _ (mret _) => by apply keeps_ret
  | |- keeps _ (raise _) => by apply keeps_raise
  | |- keeps _ (lift _) => by apply keeps_lift
  | |- keeps _ (emit _) => by apply keeps_emit
  | |- keeps _ (ax_do _ _) => by apply keeps_emit
  | |- keeps _ (get_frame _) => by apply keeps_get_frame
  | |- keeps _ (Main.plt_subplots _ _ _ _) => by apply keeps_plt_subplots
  | |- keeps _ (Main.grid_getitem _ _ _) => by apply keeps_grid_getitem
  end.

Section RendererFrames.
Context `{Libraries}.
Context {B : Type} (part : world -> B).
Hypothesis part_store : forall fs fr n l n' l',
  part (mkWorld fs fr n l) = part (mkWorld fs fr n' l').

Lemma keeps_line_plot_creation (ax data : nat) (countries : list string)
    (indicator : string) (years : list string) :
  keeps part (line_plot_creation ax data countries indicator years).
Proof.
  unfold line_plot_creation, line_plot_year, line_plot_finish, ax_plot.
  repeat keeps_step.
Qed.

Lemma keeps_horizontal_bar_plot_creation (ax data : nat) (countries : list string)
    (indicator : string) (years : list string) :
  keeps part (horizontal_bar_plot_creation ax data countries indicator years).
Proof.
  unfold horizontal_bar_plot_creation, bar_plot_year, bar_plot_finish, annotate_bars, ax_barh.
  repeat keeps_step.
Qed.

Lemma keeps_create_merchandise_pie_chart (ax data : nat) (countries : list string)
    (indicator year chart_type : string) :
  keeps part (create_merchandise_pie_chart ax data countries indicator year chart_type).
Proof.
  unfold create_merchandise_pie_chart, pie_finish, ax_pie.
  repeat keeps_step.
Qed.

End RendererFrames.

(** C8: whatever a renderer is called with, and whether it returns or
    raises, the store of DataFrame objects after the call is the store
    before it; so the table passed as [data] is, row for row, column for
    column and cell for cell, the table it was. *)
Theorem renderers_keep_table `{Libraries} (ax data : nat) (countries : list string)
    (indicator : string) (years : list string) (year chart_type : string) (w : world) :
  let after_line := snd (run (line_plot_creation ax data countries indicator years) w) in
  let after_bar :=
    snd (run (horizontal_bar_plot_creation ax data countries indicator years) w) in
  let after_pie :=
    snd (run (create_merchandise_pie_chart ax data countries indicator year chart_type) w) in
  (frames after_line = frames w /\ frames after_line !! data = frames w !! data)
  /\ (frames after_bar = frames w /\ frames after_bar !! data = frames w !! data)
  /\ (frames after_pie = frames w /\ frames after_pie !! data = frames w !! data).
Proof.
  intros after_line after_bar after_pie.
  assert (Hline : frames after_line = frames w)
    by (by apply (keeps_line_plot_creation frames)).
  assert (Hbar : frames after_bar = frames w)
    by (by apply (keeps_horizontal_bar_plot_creation frames)).
  assert (Hpie : frames after_pie = frames w)
    by (by apply (keeps_create_merchandise_pie_chart frames)).
  rewrite Hline, Hbar, Hpie. done.
Qed.

Example bar_renderer_keeps_trade :
  let after :=
    snd (run (horizontal_bar_plot_creation (H := Fixture.libs) 0 7 ["Brazil"; "Canada"]%string
                Fixture.imports ["2010"; "2011"]%string)
             Fixture.with_trade) in
  frames after !! 7%nat = Some Fixture.trade /\ length (log after) = 16%nat.
Proof. vm_compute. split; reflexivity. Qed.

(** ** The script as a whole *)

Section MainFacts.
Context `{Libraries}.

Lemma loader_file_missing (filename : string) (w : world) :
  files w !! filename = None ->
  run (read_export_import_data filename) w = (Raise (FileNotFoundError filename), w).
Proof.
  intros Hnone. unfold read_export_import_data.
  apply MFacts.run_bind_raise. unfold run, read_csv. by rewrite Hnone.
Qed.

Lemma loader_file_unparseable (filename content : string) (w : world) :
  files w !! filename = Some content ->
  csv_parse content = None ->
  run (read_export_import_data filename) w = (Raise ParserError, w).
Proof.
  intros Hfile Hparse. unfold read_export_import_data.
  apply MFacts.run_bind_raise. unfold run, read_csv. by rewrite Hfile, Hparse.
Qed.

Lemma keeps_files_read_csv (path : string) : keeps files (read_csv path).
Proof.
  intros w. unfold run, read_csv.
  destruct (files w !! path) as [content|]; [|done]. by destruct (csv_parse content).
Qed.

Lemma keeps_files_new_frame (df : DataFrame) : keeps files (new_frame df).
Proof. by intros w. Qed.

Lemma keeps_files_update_frame (r : nat) (f : DataFrame -> result DataFrame) :
  keeps files (update_frame r f).
Proof.
  intros w. unfold run, update_frame.
  destruct (frames w !! r) as [df|]; [|done]. by destruct (f df).
Qed.

Lemma keeps_files_loader (filename : string) :
  keeps files (read_export_import_data filename).
Proof.
  unfold read_export_import_data.
  repeat first [ keeps_step
               | apply keeps_files_read_csv
               | apply keeps_files_new_frame
               | apply keeps_files_update_frame ].
Qed.

(** X16: the script writes no file, however it ends: its one call of
    [plt.savefig] is a comment. *)
Lemma main_writes_no_file : keeps files Main.main.
Proof.
  unfold Main.main.
  repeat first [ keeps_step
               | apply keeps_files_loader
               | by apply (keeps_line_plot_creation files)
               | by apply (keeps_horizontal_bar_plot_creation files)
               | by apply (keeps_create_merchandise_pie_chart files) ].
Qed.

(** The state in which the script reaches the load: the five calls of
    lines 26 to 42 are logged and the four Axes objects exist. *)
Lemma main_until_load (w : world) :
  exists w0,
    files w0 = files w /\ frames w0 = frames w
    /\ length (log w0) = (length (log w) + 5)%nat
    /\ forall e w', run (read_export_import_data Main.filename) w0 = (Raise e, w') ->
                    run Main.main w = (Raise e, w').
Proof.
  eexists. split; [|split; [|split]]; cycle 3.
  - intros e w' Hload. unfold Main.main.
    do 3 (rewrite MFacts.run_bind, MFacts.run_emit).
    rewrite MFacts.run_bind. unfold Main.plt_subplots at 1. unfold run at 1.
    cbn [files frames axes_made log].
    rewrite MFacts.run_bind, MFacts.run_emit. cbn [files frames axes_made log].
    rewrite MFacts.run_bind. rewrite Hload. reflexivity.
  - reflexivity.
  - reflexivity.
  - cbn [log]. rewrite !length_app. cbn [length]. lia.
Qed.

End MainFacts.

(** C7: when the input file is absent, or is there and does not parse, the
    script ends in the exception the load raised, which nothing catches;
    the files after the failure are the files before the script started,
    so no image was written; no table was created and nothing was drawn
    beyond the five calls that precede the load. *)
Theorem load_failure_propagates `{Libraries} (w : world) :
  (files w !! Main.filename = None
   \/ exists content, files w !! Main.filename = Some content /\ csv_parse content = None) ->
  exists e w',
    run Main.main w = (Raise e, w')
    /\ (e = FileNotFoundError Main.filename \/ e = ParserError)
    /\ files w' = files w
    /\ frames w' = frames w
    /\ length (log w') = (length (log w) + 5)%nat.
Proof.
  intros Hfail.
  destruct (main_until_load w) as (w0 & Hfiles & Hframes & Hlog & Hmain).
  destruct Hfail as [Hnone|(content & Hfile & Hparse)].
  - exists (FileNotFoundError Main.filename), w0.
    split; [|by auto].
    apply Hmain, loader_file_missing. by rewrite Hfiles.
  - exists ParserError, w0.
    split; [|by auto].
    apply Hmain, (loader_file_unparseable _ content); [by rewrite Hfiles | done].
Qed.

Lemma load_failure_propagates_witness :
  exists w',
    run (Main.main (H := Fixture.libs)) Fixture.fresh_process
    = (Raise (FileNotFoundError "MerchandiseData.csv"), w')
    /\ files w' = Fixture.disk.
Proof.
  destruct (load_failure_propagates (H := Fixture.libs) Fixture.fresh_process)
    as (e & w' & Hrun & [-> | ->] & Hfiles & _).
  - left. vm_compute. reflexivity.
  - exists w'. split; [exact Hrun | exact Hfiles].
  - exfalso. revert Hrun. vm_compute. discriminate.
Defined.

Example unparseable_file :
  fst (run (read_export_import_data (H := Fixture.libs) "broken.csv") Fixture.fresh_process)
  = Raise ParserError.
Proof. vm_compute. reflexivity. Qed.

(** * Further properties of the code *)

(** ** The renaming of headers *)

Module TokenFacts.

Import Str.

(** A string is what stands before the first [c], and, when there is a
    [c], that [c] and the rest. *)
Lemma before_prefix (c : ascii) (s : string) :
  s = before c s
  \/ exists rest, s = (before c s ++ String c rest)%string.
Proof.
  induction s as [|c' s IH]; cbn [before]; [by left|].
  destruct (Ascii.eqb_spec c' c) as [->|Hne].
  - right. by exists s.
  - destruct IH as [IH|[rest IH]].
    + left. by f_equal.
    + right. exists rest.
      transitivity (String c' (before c s ++ String c rest)%string); [by f_equal | reflexivity].
Qed.

End TokenFacts.

(** X1: the new header is a prefix of the old one. It has no space in it,
    and the old header is either the new one or the new one, a space and
    more text: nothing before the first space is lost, everything from it
    on is. *)
Theorem header_token_is_prefix (h : string) :
  exists t,
    Str.header_token h = Ok t
    /\ Str.contains Str.space t = false
    /\ (h = t \/ exists rest, h = (t ++ String Str.space rest)%string).
Proof.
  exists (Str.before Str.space h). split; [apply StrFacts.header_token_before|].
  split; [apply StrFacts.contains_before|].
  apply TokenFacts.before_prefix.
Qed.

(** ** The loader on tables it was not written for *)

Section LoaderEdges.
Context `{Libraries}.

Lemma is_label_in_not_elem (labels : list string) (col : string) :
  col ∉ labels -> Frame.is_label_in labels col = false.
Proof.
  intros Hnot. unfold Frame.is_label_in.
  destruct (existsb (String.eqb col) labels) eqn:E; [|done].
  apply existsb_exists in E as (l & Hin & ->%String.eqb_eq).
  by apply list_elem_of_In in Hin.
Qed.

(** What a load whose [drop] raises leaves behind: the exception, and the
    table cut by [iloc] as a new object. *)
Lemma loader_run_drop_raises (w : world) (filename content : string) (full : DataFrame)
    (e : exn) :
  files w !! filename = Some content ->
  csv_parse content = Some full ->
  Frame.drop_columns Frame.code_labels (Frame.iloc_until (-10) full) = Raise e ->
  run (read_export_import_data filename) w
  = (Raise e,
     mkWorld (files w)
             (<[fresh (dom (frames w)) := Frame.iloc_until (-10) full]> (frames w))
             (axes_made w) (log w)).
Proof.
  intros Hfile Hparse Hdrop.
  unfold run, read_export_import_data, mbind, M_bind, read_csv.
  rewrite Hfile, Hparse. unfold new_frame, update_frame.
  cbn [frames files axes_made log]. by rewrite lookup_insert_eq, Hdrop.
Qed.

Lemma drop_columns_absent (labels : list string) (df : DataFrame) :
  ~ Forall (fun l => l ∈ columns df) labels ->
  exists label,
    Frame.drop_columns labels df = Raise (KeyError label)
    /\ label ∈ labels /\ label ∉ columns df.
Proof.
  intros Hnot. unfold Frame.drop_columns.
  destruct (List.find _ labels) as [l|] eqn:Hfind.
  - apply find_some in Hfind as [Hin Hneg].
    exists l. split; [done|]. split; [by apply list_elem_of_In|].
    intros Hl. by rewrite (FrameFacts.is_label_in_elem _ _ Hl) in Hneg.
  - exfalso. apply Hnot, Forall_forall. intros l Hl.
    apply list_elem_of_In in Hl.
    pose proof (find_none _ _ Hfind l Hl) as Hpresent. cbn beta in Hpresent.
    destruct (decide (l ∈ columns df)) as [|Hout]; [done|].
    by rewrite (is_label_in_not_elem _ _ Hout) in Hpresent.
Qed.

End LoaderEdges.

(** X2: a file that parses to a table without one of the two code columns
    makes the loader raise KeyError for a code label the table lacks; no
    file is written and nothing is logged. *)
Theorem loader_missing_code_column `{Libraries} (w : world) (filename content : string)
    (full : DataFrame) :
  files w !! filename = Some content ->
  csv_parse content = Some full ->
  ("Country Code"%string ∉ columns full) \/ ("Series Code"%string ∉ columns full) ->
  exists label w',
    run (read_export_import_data filename) w = (Raise (KeyError label), w')
    /\ label ∈ Frame.code_labels
    /\ (label ∉ columns full)
    /\ files w' = files w
    /\ log w' = log w.
Proof.
  intros Hfile Hparse Hmissing.
  destruct (drop_columns_absent Frame.code_labels (Frame.iloc_until (-10) full))
    as (label & Hdrop & Hin & Hout).
  { intros Hall. rewrite FrameFacts.columns_iloc_until in Hall.
    apply Forall_cons in Hall as [Hcc Hall].
    apply Forall_cons in Hall as [Hsc _].
    by destruct Hmissing. }
  exists label. eexists. split; [by eapply loader_run_drop_raises|].
  by rewrite FrameFacts.columns_iloc_until in Hout.
Qed.

Lemma loader_missing_code_column_witness :
  exists w',
    run (read_export_import_data (H := Fixture.libs) "no_series_code.csv")
        Samples.fresh_process
    = (Raise (KeyError "Series Code"), w').
Proof.
  destruct (loader_missing_code_column (H := Fixture.libs) Samples.fresh_process
              "no_series_code.csv" Samples.no_series_code_csv
              (match Fixture.parse_plain_csv Samples.no_series_code_csv with
               | Some df => df
               | None => mkDataFrame [] []
               end))
    as (label & w' & Hrun & _).
  - vm_compute. reflexivity.
  - vm_compute. reflexivity.
  - right. refine (bool_decide_unpack _ _). vm_compute. exact I.
  - exists w'. rewrite Hrun. revert Hrun. vm_compute. intros [= -> _]. reflexivity.
Defined.

Module ColumnFacts.

Import Frame.

Lemma length_mask_select_same {A B} (mask : list bool) (xs : list A) (ys : list B) :
  length xs = length ys -> length (mask_select mask xs) = length (mask_select mask ys).
Proof.
  revert xs ys. induction mask as [|b mask IH]; intros [|x xs] [|y ys]; simpl; try done.
  intros [= Hlen]. destruct b; simpl; auto.
Qed.

Lemma positions_absent (label : string) (cols : list string) :
  label ∉ cols -> positions label cols = [].
Proof.
  induction cols as [|col cols IH]; intros Hnot; cbn [positions]; [done|].
  apply not_elem_of_cons in Hnot as [Hne Hnot].
  destruct (String.eqb_spec col label) as [->|_]; [done|].
  by rewrite IH.
Qed.

(** In a list of distinct labels, a label has one position: where it is. *)
Lemma positions_nodup (label : string) (cols : list string) (i : nat) :
  NoDup cols -> cols !! i = Some label -> positions label cols = [i].
Proof.
  intros Hnodup. revert i.
  induction Hnodup as [|col cols Hfresh Hnodup IH]; intros i Hi; [done|].
  cbn [positions]. destruct i as [|i]; cbn in Hi.
  - injection Hi as ->. rewrite String.eqb_refl. by rewrite positions_absent.
  - destruct (String.eqb_spec col label) as [->|_].
    + exfalso. apply Hfresh. by eapply list_elem_of_lookup_2.
    + by rewrite (IH i Hi).
Qed.

Lemma column_index_nodup (df : DataFrame) (label : string) (i : nat) :
  NoDup (columns df) -> columns df !! i = Some label -> column_index df label = Ok i.
Proof.
  intros Hnodup Hi. unfold column_index. by rewrite (positions_nodup _ _ i).
Qed.

Lemma column_index_absent (df : DataFrame) (label : string) :
  label ∉ columns df -> column_index df label = Raise (KeyError label).
Proof. intros Hnot. unfold column_index. by rewrite positions_absent. Qed.

Lemma filter_all {A} (f : A -> bool) (xs : list A) :
  Forall (fun x => f x = true) xs -> List.filter f xs = xs.
Proof.
  induction 1 as [|x xs Hx _ IH]; cbn [List.filter]; [done|].
  by rewrite Hx, IH.
Qed.

End ColumnFacts.

(** X3: the loader keeps a table rectangular. When every row of the
    parsed table has one cell per column, every row of the loaded table
    has one cell per column of the loaded table: the cells that go are
    those of the columns that go. *)
Theorem loader_keeps_rows_aligned `{Libraries} (w : world) (filename content : string)
    (full : DataFrame) :
  files w !! filename = Some content ->
  csv_parse content = Some full ->
  "Country Code"%string ∈ columns full ->
  "Series Code"%string ∈ columns full ->
  Forall (fun row => length row = length (columns full)) (rows full) ->
  exists r w' out,
    run (read_export_import_data filename) w = (Ok r, w')
    /\ frames w' !! r = Some out
    /\ Forall (fun row => length row = length (columns out)) (rows out).
Proof.
  intros Hfile Hparse Hcc Hsc Hrect.
  destruct (loader_total w filename content full Hfile Hparse)
    as (r & w' & out & Hrun & Hout & _ & Hcols & Hrows).
  { by repeat constructor. }
  exists r, w', out. split; [done|]. split; [done|].
  rewrite Hrows, Hcols, length_map, <- mask_select_map_filter.
  apply Forall_map, Forall_forall. intros row Hrow. cbn beta.
  apply ColumnFacts.length_mask_select_same.
  rewrite Forall_forall in Hrect. apply Hrect.
  by apply (subseteq_take (length (rows full) - 10) (rows full)).
Qed.

Lemma loader_keeps_rows_aligned_witness :
  exists r w' out,
    run (read_export_import_data (H := Fixture.libs) "bracket_years.csv")
        Samples.fresh_process
    = (Ok r, w')
    /\ frames w' !! r = Some out
    /\ Forall (fun row => length row = 4%nat) (rows out).
Proof.
  destruct (loader_keeps_rows_aligned (H := Fixture.libs) Samples.fresh_process
              "bracket_years.csv" Samples.bracket_years_csv
              (match Fixture.parse_plain_csv Samples.bracket_years_csv with
               | Some df => df
               | None => mkDataFrame [] []
               end))
    as (r & w' & out & Hrun & Hout & Hrect).
  - vm_compute. reflexivity.
  - vm_compute. reflexivity.
  - refine (bool_decide_unpack _ _). vm_compute. exact I.
  - refine (bool_decide_unpack _ _). vm_compute. exact I.
  - vm_compute. repeat constructor.
  - exists r, w', out. split; [exact Hrun|]. split; [exact Hout|].
    revert Hrun Hout Hrect. vm_compute. intros [= <- <-]. vm_compute.
    intros [= <-]. cbn [columns rows length]. exact (fun Hr => Hr).
Defined.

(** X4: what the loader returns is what the renderers select from. For a
    header [Country Name, Country Code, Series Name, Series Code, years...]
    whose year headers are no code labels and whose new labels, Country,
    Series and the first tokens of the years, are distinct, the loaded
    table has Country as its one column 0, Series as its one column 1, and
    the token of the i-th year as its one column 2+i: a header
    "2010 [YR2010]" is selected as "2010". *)
Theorem loader_output_selectable `{Libraries} (w : world) (filename content : string)
    (years tokens : list string) (table : list (list cell)) :
  files w !! filename = Some content ->
  csv_parse content =
    Some (mkDataFrame
            ("Country Name" :: "Country Code" :: "Series Name" :: "Series Code" :: years)%string
            table) ->
  Forall (fun y => Frame.is_label_in Frame.code_labels y = false) years ->
  mapM Str.header_token years = Ok tokens ->
  NoDup ("Country" :: "Series" :: tokens)%string ->
  exists r w' out,
    run (read_export_import_data filename) w = (Ok r, w')
    /\ frames w' !! r = Some out
    /\ Frame.column_index out "Country" = Ok 0%nat
    /\ Frame.column_index out "Series" = Ok 1%nat
    /\ forall (i : nat) (t : string),
         tokens !! i = Some t -> Frame.column_index out t = Ok (2 + i)%nat.
Proof.
  intros Hfile Hparse Hyears Htokens Hnodup.
  destruct (loader_total w filename content _ Hfile Hparse)
    as (r & w' & out & Hrun & Hout & _ & Hcols & _).
  { repeat constructor; simpl; set_solver. }
  rewrite StrFacts.mapM_header_token in Htokens. injection Htokens as <-.
  cbn [columns List.filter Frame.is_label_in Frame.code_labels existsb String.eqb
       Ascii.eqb Bool.eqb orb negb map] in Hcols.
  rewrite ColumnFacts.filter_all in Hcols.
  2:{ eapply Forall_impl; [exact Hyears|]. cbn beta. intros y Hy.
      unfold Frame.is_label_in, Frame.code_labels in Hy. cbn [existsb] in Hy.
      by rewrite Hy. }
  cbn [map Str.before Str.space Ascii.eqb Bool.eqb] in Hcols.
  exists r, w', out. split; [done|]. split; [done|].
  rewrite <- Hcols in Hnodup.
  split; [|split].
  - apply ColumnFacts.column_index_nodup; [done|]. by rewrite Hcols.
  - apply ColumnFacts.column_index_nodup; [done|]. by rewrite Hcols.
  - intros i t Hi. apply ColumnFacts.column_index_nodup; [done|]. by rewrite Hcols.
Qed.

Lemma loader_output_selectable_witness :
  exists r w' out,
    run (read_export_import_data (H := Fixture.libs) "bracket_years.csv")
        Samples.fresh_process
    = (Ok r, w')
    /\ frames w' !! r = Some out
    /\ Frame.column_index out "2011" = Ok 3%nat.
Proof.
  destruct (loader_output_selectable (H := Fixture.libs) Samples.fresh_process
              "bracket_years.csv" Samples.bracket_years_csv
              ["2010 [YR2010]"; "2011 [YR2011]"]%string ["2010"; "2011"]%string
              (match Fixture.parse_plain_csv Samples.bracket_years_csv with
               | Some df => rows df
               | None => []
               end))
    as (r & w' & out & Hrun & Hout & _ & _ & Hyear).
  - vm_compute. reflexivity.
  - vm_compute. reflexivity.
  - repeat constructor.
  - reflexivity.
  - refine (bool_decide_unpack _ _). vm_compute. exact I.
  - exists r, w', out. split; [exact Hrun|]. split; [exact Hout|].
    exact (Hyear 1%nat "2011"%string eq_refl).
Defined.

(** ** The selection at its edges *)

Module SelectEdges.

Import Frame.

Lemma isin_same_members (series : list cell) (texts texts' : list string) :
  (forall c, c ∈ texts <-> c ∈ texts') -> isin series texts = isin series texts'.
Proof.
  intros Hsame. unfold isin. apply map_ext. intros [s| |]; try done.
  apply eq_true_iff_eq. rewrite !existsb_exists.
  split; intros (c & Hin & Heq); exists c; (split; [|done]);
    apply list_elem_of_In, Hsame, list_elem_of_In, Hin.
Qed.

Lemma filter_none {A} (f : A -> bool) (xs : list A) :
  (forall x, f x = false) -> List.filter f xs = [].
Proof.
  intros Hf. induction xs as [|x xs IH]; cbn [List.filter]; [done|].
  by rewrite Hf.
Qed.

Lemma row_selected_no_country (i_series i_country : nat) (indicator : string)
    (row : list cell) :
  row_selected i_series i_country indicator [] row = false.
Proof.
  unfold row_selected.
  destruct (cell_at i_series row), (cell_at i_country row); try done.
  cbn [existsb]. apply andb_false_r.
Qed.

End SelectEdges.

(** X5: the selection raises KeyError for the first label it cannot find,
    in the order Series, Country, year: for a table with no Series column
    it is KeyError Series whatever else is missing, with Series and no
    Country column it is KeyError Country, and with both and no column of
    the year it is KeyError of the year. *)
Theorem select_key_errors (df : DataFrame) (indicator : string) (countries : list string)
    (year : string) :
  ("Series"%string ∉ columns df ->
   Frame.select df indicator countries year = Raise (KeyError "Series"))
  /\ (forall i_series,
        Frame.column_index df "Series" = Ok i_series ->
        "Country"%string ∉ columns df ->
        Frame.select df indicator countries year = Raise (KeyError "Country"))
  /\ (forall i_series i_country,
        Frame.column_index df "Series" = Ok i_series ->
        Frame.column_index df "Country" = Ok i_country ->
        year ∉ columns df ->
        Frame.select df indicator countries year = Raise (KeyError year)).
Proof.
  unfold Frame.select, Frame.loc, Frame.getitem. split; [|split].
  - intros Hs. by rewrite (ColumnFacts.column_index_absent _ _ Hs).
  - intros i_series Hs Hc.
    by rewrite Hs, (ColumnFacts.column_index_absent _ _ Hc).
  - intros i_series i_country Hs Hc Hy.
    by rewrite Hs, Hc, (ColumnFacts.column_index_absent _ _ Hy).
Qed.

Lemma select_key_errors_witness :
  Frame.select Fixture.trade Fixture.exports ["Brazil"]%string "2015"
  = Raise (KeyError "2015").
Proof.
  apply (proj2 (proj2 (select_key_errors Fixture.trade Fixture.exports ["Brazil"]%string
                         "2015")) 1%nat 0%nat).
  - reflexivity.
  - reflexivity.
  - refine (bool_decide_unpack _ _). vm_compute. exact I.
Defined.

(** X6: the selection depends on which countries are in the list, not on
    their order nor on repetitions: two lists with the same members select
    the same values, in the same order, or raise the same exception. *)
Theorem select_only_members_matter (df : DataFrame) (indicator : string)
    (countries countries' : list string) (year : string) :
  (forall c, c ∈ countries <-> c ∈ countries') ->
  Frame.select df indicator countries year = Frame.select df indicator countries' year.
Proof.
  intros Hsame. unfold Frame.select.
  destruct (Frame.getitem df "Series") as [series|e]; [|done].
  destruct (Frame.getitem df "Country") as [country|e]; [|done].
  cbn [mbind result_bind].
  by rewrite (SelectEdges.isin_same_members country countries countries' Hsame).
Qed.

Lemma select_only_members_matter_witness :
  Frame.select Fixture.trade Fixture.exports ["Canada"; "Brazil"; "Canada"]%string "2013"
  = Frame.select Fixture.trade Fixture.exports ["Brazil"; "Canada"]%string "2013".
Proof.
  apply select_only_members_matter. intros c. split; intros Hc.
  - apply elem_of_cons in Hc as [->|Hc]; [apply elem_of_cons; right; apply elem_of_cons; by left|].
    exact Hc.
  - apply elem_of_cons. right. exact Hc.
Defined.

(** X7: with an empty list of countries the selection of a table that has
    the three columns is empty, whatever the table holds. *)
Theorem select_no_countries (df : DataFrame) (indicator year : string)
    (i_series i_country i_year : nat) :
  Frame.column_index df "Series" = Ok i_series ->
  Frame.column_index df "Country" = Ok i_country ->
  Frame.column_index df year = Ok i_year ->
  Frame.select df indicator [] year = Ok [].
Proof.
  intros Hs Hc Hy. unfold Frame.select, Frame.loc.
  rewrite (SelectFacts.getitem_index _ _ _ Hs), (SelectFacts.getitem_index _ _ _ Hc),
          (SelectFacts.getitem_index _ _ _ Hy).
  cbn [mbind result_bind]. rewrite SelectFacts.mask_select_rows.
  rewrite SelectEdges.filter_none; [done|].
  apply SelectEdges.row_selected_no_country.
Qed.

Lemma select_no_countries_witness :
  Frame.select Fixture.trade Fixture.exports [] "2010" = Ok [].
Proof.
  apply (select_no_countries Fixture.trade Fixture.exports "2010" 1 0 2); reflexivity.
Defined.

(** ** The renderers at their edges *)

Section RendererEdges.
Context `{Libraries}.

(** The line loop from index [start] on, when the years outnumber the
    colours that are left: one series per colour, then IndexError. *)
Lemma line_plot_loop_overflow (ax data : nat) (df : DataFrame) (countries : list string)
    (indicator : string) (colors years : list string) (start : nat) (w : world) :
  frames w !! data = Some df ->
  (start <= length colors)%nat ->
  (length colors < start + length years)%nat ->
  (forall year, year ∈ years ->
     exists cells, Frame.select df indicator countries year = Ok cells
                   /\ length cells = length countries) ->
  exists plots,
    length plots = (length colors - start)%nat
    /\ Forall (fun ev => exists x y marker label color,
                 ev = on_axes ax (Axes.plot x y marker label color)) plots
    /\ run (for_each (enumerate_from start years)
              (fun '(i, year) => line_plot_year ax data countries indicator colors i year)) w
       = (Raise IndexError, mkWorld (files w) (frames w) (axes_made w) (log w ++ plots)).
Proof.
  revert start w. induction years as [|year years IH]; intros start w Hdata Hstart Hlen Hsel.
  - cbn [length] in Hlen. lia.
  - cbn [length] in Hlen.
    destruct (Hsel year) as (cells & Hcells & Hcount); [set_solver|].
    cbn [enumerate_from for_each]. rewrite MFacts.run_bind.
    destruct (decide (start < length colors)%nat) as [Hlt|Hge].
    + destruct (lookup_lt_is_Some_2 colors start Hlt) as [color Hcolor].
      rewrite (line_plot_year_run ax data df countries indicator colors start year color
                 cells w Hdata Hcells Hcount Hcolor).
      set (ev := on_axes ax (Axes.plot countries
                               (map (fun c => coerce_cell c / 10)%float cells)
                               "D" year color)).
      destruct (IH (S start) (mkWorld (files w) (frames w) (axes_made w) (log w ++ [ev])))
        as (plots & Hplots & Hall & Hrun); [done | lia | lia | |].
      { intros y Hy. apply Hsel. set_solver. }
      exists (ev :: plots). split; [cbn [length]; lia|]. split.
      * constructor; [by eexists _, _, _, _, _ | done].
      * rewrite Hrun. cbn [files frames axes_made log]. by rewrite <- app_assoc.
    + assert (Hnone : colors !! start = None) by (apply lookup_ge_None_2; lia).
      rewrite (line_plot_year_no_colour ax data df countries indicator colors start year
                 cells w Hdata Hcells Hnone).
      exists []. split; [cbn [length]; lia|]. split; [constructor|].
      destruct w. cbn. by rewrite app_nil_r.
Qed.




End RendererEdges.

(** X8: with more years than the four colours of line 56, each year a
    column whose selection has one value per country, the line renderer
    draws the series of the first four years on its Axes object, then
    raises IndexError; the series stay drawn, no title or legend follows,
    and the table is as it was. *)
Theorem line_plot_too_many_years `{Libraries} (ax data : nat) (df : DataFrame)
    (countries : list string) (indicator : string) (years : list string) (w : world) :
  frames w !! data = Some df ->
  (length line_colors < length years)%nat ->
  (forall year, year ∈ years ->
     exists cells, Frame.select df indicator countries year = Ok cells
                   /\ length cells = length countries) ->
  exists plots w',
    run (line_plot_creation ax data countries indicator years) w = (Raise IndexError, w')
    /\ log w' = log w ++ plots
    /\ length plots = 4%nat
    /\ Forall (fun ev => exists x y marker label color,
                 ev = on_axes ax (Axes.plot x y marker label color)) plots
    /\ frames w' = frames w.
Proof.
  intros Hdata Hlen Hsel.
  destruct (line_plot_loop_overflow ax data df countries indicator line_colors years 0 w
              Hdata) as (plots & Hplots & Hall & Hrun); [lia | lia | done |].
  exists plots. eexists. split; [|split; [|split; [|split]]].
  - unfold line_plot_creation. cbv zeta. rewrite MFacts.run_bind.
    unfold enumerate. rewrite Hrun. reflexivity.
  - reflexivity.
  - rewrite Hplots. reflexivity.
  - exact Hall.
  - reflexivity.
Qed.

Lemma line_plot_too_many_years_witness :
  fst (run (line_plot_creation (H := Fixture.libs) 0 7 ["Canada"]%string Fixture.imports
              ["2010"; "2011"; "2012"; "2013"; "2014"; "2010"]%string)
           Fixture.with_trade)
  = Raise IndexError.
Proof.
  destruct (line_plot_too_many_years (H := Fixture.libs) 0 7 Fixture.trade ["Canada"]%string
              Fixture.imports ["2010"; "2011"; "2012"; "2013"; "2014"; "2010"]%string
              Fixture.with_trade)
    as (plots & w' & Hrun & _).
  - reflexivity.
  - cbn. lia.
  - intros year Hyear.
    repeat (apply elem_of_cons in Hyear as [->|Hyear];
            [eexists; split; [vm_compute; reflexivity | reflexivity]|]).
    by apply elem_of_nil in Hyear.
  - rewrite Hrun. reflexivity.
Defined.



(** X10: the pie renderer asked for a year the table has no column of
    raises KeyError of that year and has drawn nothing: the state after
    the call is the state before it. *)
Theorem pie_missing_year `{Libraries} (ax data : nat) (df : DataFrame)
    (countries : list string) (indicator year chart_type : string)
    (i_series i_country : nat) (w : world) :
  frames w !! data = Some df ->
  Frame.column_index df "Series" = Ok i_series ->
  Frame.column_index df "Country" = Ok i_country ->
  year ∉ columns df ->
  run (create_merchandise_pie_chart ax data countries indicator year chart_type) w
  = (Raise (KeyError year), w).
Proof.
  intros Hdata Hs Hc Hy. unfold create_merchandise_pie_chart.
  rewrite (MFacts.run_bind_ok _ _ _ _ _ (MFacts.run_get_frame _ _ _ Hdata)).
  apply MFacts.run_bind_raise. rewrite MFacts.run_lift.
  unfold Frame.select, Frame.loc, Frame.getitem.
  by rewrite Hs, Hc, (ColumnFacts.column_index_absent _ _ Hy).
Qed.

Lemma pie_missing_year_witness :
  run (create_merchandise_pie_chart (H := Fixture.libs) 0 7 ["Brazil"; "Canada"]%string
         Fixture.exports "2015" "exports")
      Fixture.with_trade
  = (Raise (KeyError "2015"), Fixture.with_trade).
Proof.
  apply (pie_missing_year (H := Fixture.libs) 0 7 Fixture.trade ["Brazil"; "Canada"]%string
           Fixture.exports "2015" "exports" 1 0).
  - reflexivity.
  - reflexivity.
  - reflexivity.
  - refine (bool_decide_unpack _ _). vm_compute. exact I.
Defined.

(** ** What a renderer may touch *)

Section LogsOnly.
Context (allowed : event -> Prop).

Lemma logs_only_quiet {A} (m : M A) :
  (forall w, snd (run m w) = w) -> logs_only allowed m.
Proof.
  intros Hquiet w. exists []. rewrite Hquiet, app_nil_r. by split.
Qed.

Lemma logs_only_get_frame (r : nat) : logs_only allowed (get_frame r).
Proof.
  apply logs_only_quiet. intros w. unfold run, get_frame. by destruct (frames w !! r).
Qed.

Lemma logs_only_emit (e : event) : allowed e -> logs_only allowed (emit e).
Proof. intros He w. exists [e]. split; [done|]. by constructor. Qed.

Lemma logs_only_bind {A C} (m : M A) (f : A -> M C) :
  logs_only allowed m -> (forall a, logs_only allowed (f a)) -> logs_only allowed (m ≫= f).
Proof.
  intros Hm Hf w. rewrite MFacts.run_bind.
  destruct (Hm w) as (first & Hfirst & Hall).
  destruct (run m w) as [[a|e] w1]; cbn [snd] in *; [|by exists first].
  destruct (Hf a w1) as (second & Hsecond & Hall').
  exists (first ++ second). split; [|by apply Forall_app].
  by rewrite Hsecond, Hfirst, app_assoc.
Qed.

Lemma logs_only_for_each {A} (xs : list A) (body : A -> M unit) :
  (forall x, logs_only allowed (body x)) -> logs_only allowed (for_each xs body).
Proof.
  intros Hbody. induction xs as [|x xs IH]; cbn [for_each].
  - by apply logs_only_quiet.
  - apply logs_only_bind; [apply Hbody | by intros _].
Qed.

End LogsOnly.

(** Splits a goal [logs_only (own_event ax) m] along the structure of [m]. *)
Ltac logs_only_step :=
  match goal with
  | |- logs_only _ (mbind _ _) => apply logs_only_bind; [|intros]
  | |- logs_only _ (for_each _ _) => apply logs_only_for_each; intros
  | |- logs_only _ (let '(_, _) := ?p in _) => destruct p
  | |- logs_only _ (if ?b then _ else _) => destruct b
  | |- logs_only _ (get_frame _) => apply logs_only_get_frame
  | |- logs_only _ (emit (on_seaborn _)) => apply logs_only_emit; by left
  | |- logs_only _ (emit (on_axes _ _)) => apply logs_only_emit; right; by eexists
  | |- logs_only _ (ax_do _ _) => apply logs_only_emit; right; by eexists
  | |- logs_only _ (mret _) => by apply logs_only_quiet
  | |- logs_only _ (raise _) => by apply logs_only_quiet
  | |- logs_only _ (lift _) => by apply logs_only_quiet
  end.

(** X11: a renderer only adds to the log, and what it adds are calls of
    methods of the Axes object it was given and [sns.set_style("dark")]:
    whether it returns or raises, it draws on no other Axes object, makes
    no pyplot call and removes nothing that was drawn before. *)
Theorem renderers_log_own_events `{Libraries} (ax data : nat) (countries : list string)
    (indicator : string) (years : list string) (year chart_type : string) :
  logs_only (own_event ax) (line_plot_creation ax data countries indicator years)
  /\ logs_only (own_event ax) (horizontal_bar_plot_creation ax data countries indicator years)
  /\ logs_only (own_event ax)
       (create_merchandise_pie_chart ax data countries indicator year chart_type).
Proof.
  split; [|split].
  - unfold line_plot_creation, line_plot_year, line_plot_finish, ax_plot.
    repeat logs_only_step.
  - unfold horizontal_bar_plot_creation, bar_plot_year, bar_plot_finish, annotate_bars,
      ax_barh.
    repeat logs_only_step.
  - unfold create_merchandise_pie_chart, pie_finish, ax_pie.
    repeat logs_only_step.
Qed.

(** ** The loader and the tables that exist *)

(** X12: the loader changes no table that existed before the call. Every
    DataFrame object of the state before is the same object after, whether
    the load returns or raises; the table it returns is a new object. *)
Theorem loader_keeps_other_tables `{Libraries} (filename : string) (w : world) :
  (forall r df, frames w !! r = Some df ->
                frames (snd (run (read_export_import_data filename) w)) !! r = Some df)
  /\ (forall r w', run (read_export_import_data filename) w = (Ok r, w') ->
                   frames w !! r = None /\ is_Some (frames w' !! r)).
Proof.
  assert (Hfresh : frames w !! fresh (dom (frames w)) = None).
  { apply not_elem_of_dom, is_fresh. }
  unfold run, read_export_import_data, mbind, M_bind, read_csv.
  destruct (files w !! filename) as [content|]; [|by split].
  destruct (csv_parse content) as [full|]; [|by split].
  unfold new_frame, update_frame, get_frame, lift, mret, M_ret.
  cbn [frames files axes_made log]. rewrite lookup_insert_eq.
  destruct (Frame.drop_columns Frame.code_labels (Frame.iloc_until (-10) full))
    as [dropped|e]; cbn [frames files axes_made log snd];
    rewrite ?lookup_insert_eq.
  - destruct (mapM Str.header_token (columns dropped)) as [labels|e];
      cbn [frames files axes_made log snd]; rewrite ?lookup_insert_eq.
    + destruct (Frame.set_columns labels dropped) as [renamed|e];
        cbn [frames files axes_made log snd].
      * split.
        -- intros r df Hr. rewrite !lookup_insert_ne; [done|congruence..].
        -- intros r w' [= <- <-]. cbn [frames]. split; [done|].
           rewrite lookup_insert_eq. by eexists.
      * split; [|done].
        intros r df Hr. rewrite !lookup_insert_ne; [done|congruence..].
    + split; [|done].
      intros r df Hr. rewrite !lookup_insert_ne; [done|congruence..].
  - split; [|done].
    intros r df Hr. rewrite lookup_insert_ne; [done|congruence].
Qed.

Lemma loader_keeps_other_tables_witness :
  frames (snd (run (read_export_import_data (H := Fixture.libs) "two_years.csv")
                   (mkWorld Fixture.disk {[ 7%nat := Fixture.trade ]} 0 [])))
    !! 7%nat
  = Some Fixture.trade.
Proof.
  apply (proj1 (loader_keeps_other_tables (H := Fixture.libs) "two_years.csv"
                  (mkWorld Fixture.disk {[ 7%nat := Fixture.trade ]} 0 []))).
  reflexivity.
Defined.

(** X13: the last ten rows go whatever they hold, and no other row does.
    For a table with the two code columns whose rows are some rows followed
    by ten more, the loaded table has exactly the former, in their order,
    each without its cells of the code columns. *)
Theorem loader_drops_last_ten_unread `{Libraries} (w : world) (filename content : string)
    (cols : list string) (body tail : list (list cell)) :
  files w !! filename = Some content ->
  csv_parse content = Some (mkDataFrame cols (body ++ tail)) ->
  length tail = 10%nat ->
  "Country Code"%string ∈ cols ->
  "Series Code"%string ∈ cols ->
  exists r w' out,
    run (read_export_import_data filename) w = (Ok r, w')
    /\ frames w' !! r = Some out
    /\ rows out =
         map (Frame.mask_select
                (map (fun col => negb (Frame.is_label_in Frame.code_labels col)) cols))
             body.
Proof.
  intros Hfile Hparse Htail Hcc Hsc.
  destruct (loader_total w filename content _ Hfile Hparse)
    as (r & w' & out & Hrun & Hout & _ & _ & Hrows).
  { by repeat constructor. }
  exists r, w', out. split; [done|]. split; [done|].
  rewrite Hrows. cbn [rows columns]. f_equal.
  rewrite length_app, Htail.
  replace (length body + 10 - 10)%nat with (length body) by lia.
  by rewrite take_app_length.
Qed.

Lemma loader_drops_last_ten_unread_witness :
  exists r w' out,
    run (read_export_import_data (H := Fixture.libs) "two_years.csv") Fixture.fresh_process
    = (Ok r, w')
    /\ frames w' !! r = Some out
    /\ length (rows out) = 2%nat.
Proof.
  destruct (loader_drops_last_ten_unread (H := Fixture.libs) Fixture.fresh_process
              "two_years.csv" Fixture.two_years_csv
              ["Country Name"; "Country Code"; "Series Name"; "Series Code"; "2010"; "2011"]%string
              (match Fixture.parse_plain_csv Fixture.two_years_csv with
               | Some df => take 2 (rows df)
               | None => []
               end)
              (replicate 10 (replicate 5 (CStr ""))))
    as (r & w' & out & Hrun & Hout & Hrows).
  - vm_compute. reflexivity.
  - vm_compute. reflexivity.
  - reflexivity.
  - refine (bool_decide_unpack _ _). vm_compute. exact I.
  - refine (bool_decide_unpack _ _). vm_compute. exact I.
  - exists r, w', out. split; [exact Hrun|]. split; [exact Hout|].
    rewrite Hrows. reflexivity.
Defined.

(** X14: a text cell pandas reads no number in is labelled nanM by the
    bar renderer: coerced (line 93) it is NaN, in billions (line 94) it is
    NaN, NaN is not at least 1, and NaN times 1000 formats as nan
    (line 101). *)
Theorem unreadable_cell_bar_label `{Libraries} (cells : list cell) (k : nat) (s : string) :
  cells !! k = Some (CStr s) ->
  to_double s = None ->
  exists numbers,
    to_numeric cells errors_coerce = Ok numbers
    /\ map formatted_value (map (fun val => val / 1000000000)%float numbers) !! k
       = Some "nanM"%string.
Proof.
  intros Hk Hs. exists (map coerce_cell cells). split; [done|].
  rewrite !list_lookup_fmap, Hk. cbn [fmap option_fmap option_map].
  unfold coerce_cell, parse_cell. rewrite Hs. reflexivity.
Qed.

Lemma unreadable_cell_bar_label_witness :
  exists numbers,
    to_numeric (H := Fixture.libs) [CInt 2500000000; CStr ".."] errors_coerce = Ok numbers
    /\ map formatted_value (map (fun val => val / 1000000000)%float numbers) !! 1%nat
       = Some "nanM"%string.
Proof.
  apply (unreadable_cell_bar_label (H := Fixture.libs) [CInt 2500000000; CStr ".."] 1 "..");
    reflexivity.
Defined.

